(** * Mining dashboard: data-access, aggregation and authentication layer

    A shallow embedding of the Python sources

      - models/{user,role,country,mineral,production_stats}.py
      - models/database_manager.py
      - controllers/{auth,data,visualization}_controller.py
      - app.py (the two detail routes)

    followed by the properties the specification states about them.

    Modelling conventions.

    - A table of the backing store is a list of rows whose fields carry the
      column names of the CSV header; a file that does not exist is [None].
      [pd.read_csv] itself (the CSV syntax and pandas' dtype inference) is
      outside the model: a file that exists is taken to hold the columns of
      its schema, with cells of the types that the entity classes document
      for their attributes: integers ([Z]), IEEE-754 binary64 numbers
      (Rocq's primitive [float]) and strings.
    - Integers are the mathematical ones, as Python's [int]. pandas hands
      an integer cell over as a 64-bit NumPy integer, or as a binary64
      number when the cell comes from a row of a frame whose columns are
      all numeric; both agree with [Z] on comparisons and sums as long as
      the values stay below 2^53 in magnitude, the range this model is
      about.
    - Strings are sequences of ASCII characters.
    - A [DataFrame] keeps its column labels next to its rows, because
      [pd.DataFrame()] (what a loader returns for a missing file) has no
      columns, and selecting a column by label from it raises [KeyError].
    - Python exceptions are values of [exception]; code that may raise
      lives in the [result] monad.
    - A Python [dict] is an association list in insertion order. *)

From Stdlib Require Import ZArith List String Ascii Bool Floats Lia Permutation.
From Stdlib Require DecimalString.
Import ListNotations.

Local Open Scope Z_scope.
Local Open Scope string_scope.

(* ================================================================== *)
(** * Python runtime fragments used by the sources *)
(* ================================================================== *)

Module Py.

(** The scalar values of the program: cells of a table, keys and values
    of a dict. *)
Inductive value : Type :=
| VInt (z : Z)
| VFloat (f : float)
| VStr (s : string).

Inductive exception : Type :=
| FileNotFoundError (path : string)
| KeyError (key : value)
| NameError (name : string)
| IndexError (msg : string)
| AttributeError (msg : string).

Inductive result (A : Type) : Type :=
| Ok (a : A)
| Raise (e : exception).
Arguments Ok {A} a.
Arguments Raise {A} e.

Definition bind {A B : Type} (m : result A) (k : A -> result B) : result B :=
  match m with
  | Ok a => k a
  | Raise e => Raise e
  end.

(** [for x in xs: ys.append(f x)] where [f] may raise. *)
Fixpoint for_each {A B : Type} (f : A -> result B) (xs : list A)
  : result (list B) :=
  match xs with
  | [] => Ok []
  | x :: xs' =>
      bind (f x) (fun y =>
      bind (for_each f xs') (fun ys => Ok (y :: ys)))
  end.

(** int -> float conversion (round to nearest, ties to even), as done by
    [/] and [*] when one operand is an int and the other a float. *)
Definition float_of_Z (z : Z) : float :=
  SF2Prim (SpecFloat.binary_normalize prec emax z 0 false).

(** ** Insertion-ordered dictionaries *)

Section Dict.
Context {K V : Type} (eqb : K -> K -> bool).

Definition dict : Type := list (K * V).

Fixpoint dict_contains (k : K) (d : dict) : bool :=
  match d with
  | [] => false
  | (k', _) :: d' => if eqb k k' then true else dict_contains k d'
  end.

Fixpoint dict_get (k : K) (d : dict) : option V :=
  match d with
  | [] => None
  | (k', v) :: d' => if eqb k k' then Some v else dict_get k d'
  end.

(** [d[k] = v]: overwrite in place when the key is there, append
    otherwise (a dict iterates in insertion order). *)
Fixpoint dict_set (k : K) (v : V) (d : dict) : dict :=
  match d with
  | [] => [(k, v)]
  | (k', v') :: d' =>
      if eqb k k' then (k', v) :: d' else (k', v') :: dict_set k v d'
  end.

Definition dict_keys (d : dict) : list K := map fst d.
Definition dict_items (d : dict) : list (K * V) := d.
End Dict.

(** ** Strings: [str.split(sep)] and [str.strip()] *)

(** [s.split(sep)] for a one-character separator: every occurrence
    cuts, empty pieces are kept, and the empty string gives [['']]. *)
Fixpoint split (sep : ascii) (s : string) : list string :=
  match s with
  | EmptyString => [EmptyString]
  | String c rest =>
      if Ascii.eqb c sep then EmptyString :: split sep rest
      else match split sep rest with
           | [] => [String c EmptyString]
           | w :: ws => String c w :: ws
           end
  end.

(** The ASCII characters for which [str.isspace] holds:
    TAB, LF, VT, FF, CR, FS, GS, RS, US and the space. *)
Definition isspace (c : ascii) : bool :=
  let n := nat_of_ascii c in
  ((9 <=? n)%nat && (n <=? 13)%nat)
  || ((28 <=? n)%nat && (n <=? 32)%nat).

Fixpoint lstrip (s : string) : string :=
  match s with
  | EmptyString => EmptyString
  | String c rest => if isspace c then lstrip rest else s
  end.

Fixpoint rstrip (s : string) : string :=
  match s with
  | EmptyString => EmptyString
  | String c rest =>
      match rstrip rest with
      | EmptyString => if isspace c then EmptyString else String c EmptyString
      | r => String c r
      end
  end.

Definition strip (s : string) : string := rstrip (lstrip s).

(** Truth value of a string: [if s:]. *)
Definition truthy (s : string) : bool :=
  match s with
  | EmptyString => false
  | String _ _ => true
  end.

(** [x in xs] on a list of strings. *)
Definition str_in (x : string) (xs : list string) : bool :=
  existsb (String.eqb x) xs.

(** [str(z)] for an int: decimal digits, with a minus sign when
    negative. *)
Definition str_of_int (z : Z) : string :=
  DecimalString.NilZero.string_of_int (Z.to_int z).

(** [s.lower()] on ASCII letters. *)
Definition lower_char (c : ascii) : ascii :=
  let n := nat_of_ascii c in
  if ((65 <=? n)%nat && (n <=? 90)%nat)%bool then ascii_of_nat (n + 32) else c.

Fixpoint lower (s : string) : string :=
  match s with
  | EmptyString => EmptyString
  | String c rest => String (lower_char c) (lower rest)
  end.

End Py.

Import Py.

Declare Scope py_scope.
Delimit Scope py_scope with py.
Notation "x <- m ;; k" := (Py.bind m (fun x => k))
  (at level 61, m at next level, right associativity) : py_scope.
Local Open Scope py_scope.

(* ================================================================== *)
(** * models/: the entity classes *)
(* ================================================================== *)

(** ** models/user.py *)
Module User.
Record t : Type := new {
  user_id : Z;
  username : string;
  password_hash : string;
  role_id : Z;
  email : string
}.

Definition get_id (self : t) : Z := user_id self.
Definition get_username (self : t) : string := username self.
Definition get_role_id (self : t) : Z := role_id self.
Definition get_email (self : t) : string := email self.

Definition to_dict (self : t) : list (string * value) :=
  [ ("user_id", VInt (user_id self));
    ("username", VStr (username self));
    ("role_id", VInt (role_id self));
    ("email", VStr (email self)) ].
End User.

(** ** models/role.py *)
Module Role.
Record t : Type := new {
  role_id : Z;
  role_name : string;
  permissions : string
}.

Definition get_id (self : t) : Z := role_id self.
Definition get_name (self : t) : string := role_name self.
Definition get_permissions (self : t) : string := permissions self.

Definition get_permissions_list (self : t) : list string :=
  if truthy (permissions self)
  then map strip (split "," (permissions self))
  else [].

Definition has_permission (self : t) (permission : string) : bool :=
  let permissions_list := get_permissions_list self in
  str_in permission permissions_list.

Definition to_dict (self : t) : list (string * value) :=
  [ ("role_id", VInt (role_id self));
    ("role_name", VStr (role_name self));
    ("permissions", VStr (permissions self)) ].
End Role.

(** ** models/country.py *)
Module Country.
Record t : Type := new {
  country_id : Z;
  country_name : string;
  gdp_billion_usd : float;
  mining_revenue_billion_usd : float;
  key_projects : string
}.

Definition get_id (self : t) : Z := country_id self.
Definition get_name (self : t) : string := country_name self.
Definition get_gdp (self : t) : float := gdp_billion_usd self.
Definition get_mining_revenue (self : t) : float :=
  mining_revenue_billion_usd self.
Definition get_key_projects (self : t) : string := key_projects self.

Definition get_mining_contribution_percentage (self : t) : float :=
  if (0 <? gdp_billion_usd self)%float
  then (mining_revenue_billion_usd self / gdp_billion_usd self
        * float_of_Z 100)%float
  else 0%float.

Definition to_dict (self : t) : list (string * value) :=
  [ ("country_id", VInt (country_id self));
    ("country_name", VStr (country_name self));
    ("gdp_billion_usd", VFloat (gdp_billion_usd self));
    ("mining_revenue_billion_usd", VFloat (mining_revenue_billion_usd self));
    ("key_projects", VStr (key_projects self));
    ("mining_contribution_pct",
      VFloat (get_mining_contribution_percentage self)) ].
End Country.

(** ** models/mineral.py *)
Module Mineral.
Record t : Type := new {
  mineral_id : Z;
  mineral_name : string;
  description : string;
  market_price_usd_per_tonne : float
}.

Definition get_id (self : t) : Z := mineral_id self.
Definition get_name (self : t) : string := mineral_name self.
Definition get_description (self : t) : string := description self.
Definition get_market_price (self : t) : float :=
  market_price_usd_per_tonne self.

Definition to_dict (self : t) : list (string * value) :=
  [ ("mineral_id", VInt (mineral_id self));
    ("mineral_name", VStr (mineral_name self));
    ("description", VStr (description self));
    ("market_price_usd_per_tonne",
      VFloat (market_price_usd_per_tonne self)) ].
End Mineral.

(** ** models/production_stats.py *)
Module ProductionStats.
Record t : Type := new {
  stat_id : Z;
  year : Z;
  country_id : Z;
  mineral_id : Z;
  production_tonnes : Z;
  export_value_billion_usd : float
}.

Definition get_id (self : t) : Z := stat_id self.
Definition get_year (self : t) : Z := year self.
Definition get_country_id (self : t) : Z := country_id self.
Definition get_mineral_id (self : t) : Z := mineral_id self.
Definition get_production (self : t) : Z := production_tonnes self.
Definition get_export_value (self : t) : float :=
  export_value_billion_usd self.

Definition get_average_price_per_tonne (self : t) : float :=
  if production_tonnes self >? 0
  then (export_value_billion_usd self * float_of_Z 1000000000
        / float_of_Z (production_tonnes self))%float
  else 0%float.

Definition to_dict (self : t) : list (string * value) :=
  [ ("stat_id", VInt (stat_id self));
    ("year", VInt (year self));
    ("country_id", VInt (country_id self));
    ("mineral_id", VInt (mineral_id self));
    ("production_tonnes", VInt (production_tonnes self));
    ("export_value_billion_usd", VFloat (export_value_billion_usd self));
    ("avg_price_per_tonne", VFloat (get_average_price_per_tonne self)) ].
End ProductionStats.


(** ** models/site.py *)
Module Site.
Record t : Type := new {
  site_id : Z;
  site_name : string;
  country_id : Z;
  mineral_id : Z;
  latitude : float;
  longitude : float;
  production_tonnes : Z
}.

Definition get_country_id (self : t) : Z := country_id self.
Definition get_mineral_id (self : t) : Z := mineral_id self.
Definition get_production (self : t) : Z := production_tonnes self.

Definition get_id (self : t) : Z := site_id self.
Definition get_name (self : t) : string := site_name self.
Definition get_coordinates (self : t) : float * float :=
  (latitude self, longitude self).
Definition get_latitude (self : t) : float := latitude self.
Definition get_longitude (self : t) : float := longitude self.

Definition to_dict (self : t) : list (string * value) :=
  [ ("site_id", VInt (site_id self));
    ("site_name", VStr (site_name self));
    ("country_id", VInt (country_id self));
    ("mineral_id", VInt (mineral_id self));
    ("latitude", VFloat (latitude self));
    ("longitude", VFloat (longitude self));
    ("production_tonnes", VInt (production_tonnes self)) ].
End Site.

(* ================================================================== *)
(** * The backing store and pandas' DataFrame *)
(* ================================================================== *)

(** Rows of the six CSV files; the field names are the column labels. *)
Module UsersCsv.
Record row : Type := {
  UserID : Z;
  Username : string;
  PasswordHash : string;
  RoleID : Z;
  Email : string
}.
Definition header : list string :=
  ["UserID"; "Username"; "PasswordHash"; "RoleID"; "Email"].
End UsersCsv.

Module RolesCsv.
Record row : Type := {
  RoleID : Z;
  RoleName : string;
  Permissions : string
}.
Definition header : list string := ["RoleID"; "RoleName"; "Permissions"].
End RolesCsv.

Module CountriesCsv.
Record row : Type := {
  CountryID : Z;
  CountryName : string;
  GDP_BillionUSD : float;
  MiningRevenue_BillionUSD : float;
  KeyProjects : string
}.
Definition header : list string :=
  ["CountryID"; "CountryName"; "GDP_BillionUSD"; "MiningRevenue_BillionUSD";
   "KeyProjects"].
End CountriesCsv.

Module MineralsCsv.
Record row : Type := {
  MineralID : Z;
  MineralName : string;
  Description : string;
  MarketPriceUSD_per_tonne : float
}.
Definition header : list string :=
  ["MineralID"; "MineralName"; "Description"; "MarketPriceUSD_per_tonne"].
End MineralsCsv.

Module ProductionStatsCsv.
Record row : Type := {
  StatID : Z;
  Year : Z;
  CountryID : Z;
  MineralID : Z;
  Production_tonnes : Z;
  ExportValue_BillionUSD : float
}.
Definition header : list string :=
  ["StatID"; "Year"; "CountryID"; "MineralID"; "Production_tonnes";
   "ExportValue_BillionUSD"].
End ProductionStatsCsv.

Module SitesCsv.
Record row : Type := {
  SiteID : Z;
  SiteName : string;
  CountryID : Z;
  MineralID : Z;
  Latitude : float;
  Longitude : float;
  Production_tonnes : Z
}.
Definition header : list string :=
  ["SiteID"; "SiteName"; "CountryID"; "MineralID"; "Latitude"; "Longitude";
   "Production_tonnes"].
End SitesCsv.

Module Pandas.

Record DataFrame (R : Type) : Type := mkDataFrame {
  columns : list string;
  rows : list R
}.
Arguments mkDataFrame {R} columns rows.
Arguments columns {R} d.
Arguments rows {R} d.

(** [pd.DataFrame()]: no columns, no rows. *)
Definition DataFrame_new (R : Type) : DataFrame R := mkDataFrame [] [].

(** [pd.read_csv(path)]: the file's table under its header, or
    [FileNotFoundError] when there is no such file. *)
Definition read_csv {R : Type} (header : list string) (path : string)
    (file : option (list R)) : result (DataFrame R) :=
  match file with
  | Some rs => Ok (mkDataFrame header rs)
  | None => Raise (FileNotFoundError path)
  end.

(** [df[df[label] == v]]: the column is fetched by its label first, which
    raises [KeyError] when the frame has no such column; the rows whose
    cell equals [v] are kept, in order. *)
Definition select_eq {R V : Type} (eqb : V -> V -> bool) (df : DataFrame R)
    (label : string) (cell : R -> V) (v : V) : result (DataFrame R) :=
  if str_in label (columns df)
  then Ok (mkDataFrame (columns df) (filter (fun r => eqb (cell r) v) (rows df)))
  else Raise (KeyError (VStr label)).

(** [df.empty]: one of the two axes has length zero. *)
Definition empty {R : Type} (df : DataFrame R) : bool :=
  match rows df, columns df with
  | _ :: _, _ :: _ => false
  | _, _ => true
  end.

(** [df.iloc[0]]. *)
Definition iloc0 {R : Type} (df : DataFrame R) : result R :=
  match rows df with
  | r :: _ => Ok r
  | [] => Raise (IndexError "single positional indexer is out-of-bounds")
  end.

(** [df.iterrows()], without the index labels. *)
Definition iterrows {R : Type} (df : DataFrame R) : list R := rows df.

End Pandas.

Import Pandas.

(* ================================================================== *)
(** * models/database_manager.py *)
(* ================================================================== *)

Module DatabaseManager.

(** The files under [data_folder]; [None] is a file that does not exist. *)
Record t : Type := new {
  users_file : option (list UsersCsv.row);
  roles_file : option (list RolesCsv.row);
  countries_file : option (list CountriesCsv.row);
  minerals_file : option (list MineralsCsv.row);
  production_stats_file : option (list ProductionStatsCsv.row);
  sites_file : option (list SitesCsv.row)
}.

(** The body shared by the six loaders:
    [try: return pd.read_csv(f) except FileNotFoundError: print(..);
    return pd.DataFrame()]. *)
Definition load {R : Type} (header : list string) (path : string)
    (file : option (list R)) : result (DataFrame R) :=
  match read_csv header path file with
  | Ok df => Ok df
  | Raise (FileNotFoundError _) => Ok (DataFrame_new R)
  | Raise e => Raise e
  end.

Definition load_users (self : t) : result (DataFrame UsersCsv.row) :=
  load UsersCsv.header "data/users.csv" (users_file self).

Definition load_roles (self : t) : result (DataFrame RolesCsv.row) :=
  load RolesCsv.header "data/roles.csv" (roles_file self).

Definition load_countries (self : t) : result (DataFrame CountriesCsv.row) :=
  load CountriesCsv.header "data/countries.csv" (countries_file self).

Definition load_minerals (self : t) : result (DataFrame MineralsCsv.row) :=
  load MineralsCsv.header "data/minerals.csv" (minerals_file self).

Definition load_production_stats (self : t)
  : result (DataFrame ProductionStatsCsv.row) :=
  load ProductionStatsCsv.header "data/production_stats.csv"
       (production_stats_file self).

Definition load_sites (self : t) : result (DataFrame SitesCsv.row) :=
  load SitesCsv.header "data/sites.csv" (sites_file self).

(** [if not df.empty: return df.iloc[0]] / [return None]. *)
Definition first_or_none {R : Type} (df : DataFrame R) : result (option R) :=
  if negb (empty df)
  then r <- iloc0 df ;; Ok (Some r)
  else Ok None.

Definition get_user_by_username (self : t) (username : string)
  : result (option UsersCsv.row) :=
  users_df <- load_users self ;;
  user <- select_eq String.eqb users_df "Username" UsersCsv.Username username ;;
  first_or_none user.

Definition get_role_by_id (self : t) (role_id : Z)
  : result (option RolesCsv.row) :=
  roles_df <- load_roles self ;;
  role <- select_eq Z.eqb roles_df "RoleID" RolesCsv.RoleID role_id ;;
  first_or_none role.

Definition get_country_by_id (self : t) (country_id : Z)
  : result (option CountriesCsv.row) :=
  countries_df <- load_countries self ;;
  country <- select_eq Z.eqb countries_df "CountryID" CountriesCsv.CountryID
               country_id ;;
  first_or_none country.

Definition get_mineral_by_id (self : t) (mineral_id : Z)
  : result (option MineralsCsv.row) :=
  minerals_df <- load_minerals self ;;
  mineral <- select_eq Z.eqb minerals_df "MineralID" MineralsCsv.MineralID
               mineral_id ;;
  first_or_none mineral.

Section Werkzeug.
(** [werkzeug.security.check_password_hash(pwhash, password)]. *)
Variable check_password_hash : string -> string -> bool.

Definition verify_password (stored_hash provided_password : string) : bool :=
  check_password_hash stored_hash provided_password.
End Werkzeug.

End DatabaseManager.

(* ================================================================== *)
(** * controllers/auth_controller.py *)
(* ================================================================== *)

Module AuthController.

Section Werkzeug.
Variable check_password_hash : string -> string -> bool.

Definition authenticate_user (db_manager : DatabaseManager.t)
    (username password : string) : result (option User.t) :=
  user_data <- DatabaseManager.get_user_by_username db_manager username ;;
  match user_data with
  | None => Ok None
  | Some user_data =>
      if DatabaseManager.verify_password check_password_hash
           (UsersCsv.PasswordHash user_data) password
      then
        let user :=
          User.new (UsersCsv.UserID user_data)
                   (UsersCsv.Username user_data)
                   (UsersCsv.PasswordHash user_data)
                   (UsersCsv.RoleID user_data)
                   (UsersCsv.Email user_data) in
        Ok (Some user)
      else Ok None
  end.
End Werkzeug.

Definition get_user_role (db_manager : DatabaseManager.t) (role_id : Z)
  : result (option Role.t) :=
  role_data <- DatabaseManager.get_role_by_id db_manager role_id ;;
  match role_data with
  | None => Ok None
  | Some role_data =>
      let role :=
        Role.new (RolesCsv.RoleID role_data)
                 (RolesCsv.RoleName role_data)
                 (RolesCsv.Permissions role_data) in
      Ok (Some role)
  end.



Definition get_all_users (db_manager : DatabaseManager.t)
  : result (list User.t) :=
  users_df <- DatabaseManager.load_users db_manager ;;
  Ok (map (fun user_data =>
             User.new (UsersCsv.UserID user_data)
                      (UsersCsv.Username user_data)
                      (UsersCsv.PasswordHash user_data)
                      (UsersCsv.RoleID user_data)
                      (UsersCsv.Email user_data))
          (iterrows users_df)).

(** [validate_session(session_data)]; [None] stands for Python's [None],
    which [not session_data] rejects like the empty dict. *)
Definition required_keys : list string := ["user_id"; "username"; "role_id"].

Fixpoint required_keys_loop (keys : list string)
    (session_data : list (string * value)) : bool :=
  match keys with
  | [] => true
  | key :: keys' =>
      if negb (dict_contains String.eqb key session_data) then false
      else required_keys_loop keys' session_data
  end.

Definition validate_session (session_data : option (list (string * value)))
  : bool :=
  match session_data with
  | None => false
  | Some [] => false
  | Some session_data => required_keys_loop required_keys session_data
  end.

End AuthController.

(* ================================================================== *)
(** * controllers/data_controller.py *)
(* ================================================================== *)

Module DataController.

(** The constructor calls that the methods below repeat for every row:
    each keyword argument is the cell under the column of the same
    meaning. The production table has numeric columns only, so pandas
    hands the integer cells of its rows over as binary64 numbers; the
    record keeps them as the integers they are the values of (equal as
    numbers below 2^53, see the conventions). *)
Definition Country_of_row (country_data : CountriesCsv.row) : Country.t :=
  Country.new (CountriesCsv.CountryID country_data)
              (CountriesCsv.CountryName country_data)
              (CountriesCsv.GDP_BillionUSD country_data)
              (CountriesCsv.MiningRevenue_BillionUSD country_data)
              (CountriesCsv.KeyProjects country_data).

Definition Mineral_of_row (mineral_data : MineralsCsv.row) : Mineral.t :=
  Mineral.new (MineralsCsv.MineralID mineral_data)
              (MineralsCsv.MineralName mineral_data)
              (MineralsCsv.Description mineral_data)
              (MineralsCsv.MarketPriceUSD_per_tonne mineral_data).

Definition ProductionStats_of_row (stat_data : ProductionStatsCsv.row)
  : ProductionStats.t :=
  ProductionStats.new (ProductionStatsCsv.StatID stat_data)
                      (ProductionStatsCsv.Year stat_data)
                      (ProductionStatsCsv.CountryID stat_data)
                      (ProductionStatsCsv.MineralID stat_data)
                      (ProductionStatsCsv.Production_tonnes stat_data)
                      (ProductionStatsCsv.ExportValue_BillionUSD stat_data).

Definition Site_of_row (site_data : SitesCsv.row) : Site.t :=
  Site.new (SitesCsv.SiteID site_data)
           (SitesCsv.SiteName site_data)
           (SitesCsv.CountryID site_data)
           (SitesCsv.MineralID site_data)
           (SitesCsv.Latitude site_data)
           (SitesCsv.Longitude site_data)
           (SitesCsv.Production_tonnes site_data).

Definition get_all_countries (db_manager : DatabaseManager.t)
  : result (list Country.t) :=
  countries_df <- DatabaseManager.load_countries db_manager ;;
  Ok (map Country_of_row (iterrows countries_df)).

Definition get_country_by_id (db_manager : DatabaseManager.t) (country_id : Z)
  : result (option Country.t) :=
  country_data <- DatabaseManager.get_country_by_id db_manager country_id ;;
  match country_data with
  | None => Ok None
  | Some country_data => Ok (Some (Country_of_row country_data))
  end.

Definition get_all_minerals (db_manager : DatabaseManager.t)
  : result (list Mineral.t) :=
  minerals_df <- DatabaseManager.load_minerals db_manager ;;
  Ok (map Mineral_of_row (iterrows minerals_df)).

Definition get_mineral_by_id (db_manager : DatabaseManager.t) (mineral_id : Z)
  : result (option Mineral.t) :=
  mineral_data <- DatabaseManager.get_mineral_by_id db_manager mineral_id ;;
  match mineral_data with
  | None => Ok None
  | Some mineral_data => Ok (Some (Mineral_of_row mineral_data))
  end.

Definition get_all_production_stats (db_manager : DatabaseManager.t)
  : result (list ProductionStats.t) :=
  stats_df <- DatabaseManager.load_production_stats db_manager ;;
  Ok (map ProductionStats_of_row (iterrows stats_df)).

Definition get_production_by_country (db_manager : DatabaseManager.t)
    (country_id : Z) : result (list ProductionStats.t) :=
  stats_df <- DatabaseManager.load_production_stats db_manager ;;
  country_stats <- select_eq Z.eqb stats_df "CountryID"
                     ProductionStatsCsv.CountryID country_id ;;
  Ok (map ProductionStats_of_row (iterrows country_stats)).

Definition get_production_by_mineral (db_manager : DatabaseManager.t)
    (mineral_id : Z) : result (list ProductionStats.t) :=
  stats_df <- DatabaseManager.load_production_stats db_manager ;;
  mineral_stats <- select_eq Z.eqb stats_df "MineralID"
                     ProductionStatsCsv.MineralID mineral_id ;;
  Ok (map ProductionStats_of_row (iterrows mineral_stats)).

Definition get_sites_by_country (db_manager : DatabaseManager.t)
    (country_id : Z) : result (list Site.t) :=
  sites_df <- DatabaseManager.load_sites db_manager ;;
  country_sites <- select_eq Z.eqb sites_df "CountryID" SitesCsv.CountryID
                     country_id ;;
  Ok (map Site_of_row (iterrows country_sites)).

Definition get_sites_by_mineral (db_manager : DatabaseManager.t)
    (mineral_id : Z) : result (list Site.t) :=
  sites_df <- DatabaseManager.load_sites db_manager ;;
  mineral_sites <- select_eq Z.eqb sites_df "MineralID" SitesCsv.MineralID
                     mineral_id ;;
  Ok (map Site_of_row (iterrows mineral_sites)).

Definition get_country_by_name (db_manager : DatabaseManager.t)
    (country_name : string) : result (option Country.t) :=
  countries_df <- DatabaseManager.load_countries db_manager ;;
  country_data <- select_eq String.eqb countries_df "CountryName"
                    CountriesCsv.CountryName country_name ;;
  if empty country_data then Ok None
  else
    country_data <- iloc0 country_data ;;
    Ok (Some (Country_of_row country_data)).

Definition get_all_sites (db_manager : DatabaseManager.t)
  : result (list Site.t) :=
  sites_df <- DatabaseManager.load_sites db_manager ;;
  Ok (map Site_of_row (iterrows sites_df)).

End DataController.

(* ================================================================== *)
(** * controllers/visualization_controller.py *)
(* ================================================================== *)

Module VisualizationController.

(** [country_production[country_id]]. *)
Definition getitem (country_id : Z) (country_production : dict (K:=Z) (V:=Z))
  : result Z :=
  match dict_get Z.eqb country_id country_production with
  | Some v => Ok v
  | None => Raise (KeyError (VInt country_id))
  end.

(** The first loop of [create_production_by_country_pie_chart]
    ("Aggregate production by country"), from the dict built so far. *)
Fixpoint aggregate_loop (stats : list ProductionStats.t)
    (country_production : dict (K:=Z) (V:=Z)) : result (dict (K:=Z) (V:=Z)) :=
  match stats with
  | [] => Ok country_production
  | stat :: stats' =>
      let country_id := ProductionStats.get_country_id stat in
      let country_production :=
        if negb (dict_contains Z.eqb country_id country_production)
        then dict_set Z.eqb country_id 0 country_production
        else country_production in
      v <- getitem country_id country_production ;;
      let country_production :=
        dict_set Z.eqb country_id (v + ProductionStats.get_production stat)
                 country_production in
      aggregate_loop stats' country_production
  end.

Definition aggregate_production_by_country (stats : list ProductionStats.t)
  : result (dict (K:=Z) (V:=Z)) :=
  aggregate_loop stats [].

(** The second loop ("Get country names"): a group is kept when its
    country is found; [countries] and [productions] grow together. *)
Fixpoint names_loop (db_manager : DatabaseManager.t) (items : list (Z * Z))
    (countries : list string) (productions : list Z)
  : result (list string * list Z) :=
  match items with
  | [] => Ok (countries, productions)
  | (country_id, production) :: items' =>
      country <- DataController.get_country_by_id db_manager country_id ;;
      match country with
      | Some country =>
          names_loop db_manager items'
                     (countries ++ [Country.get_name country])
                     (productions ++ [production])
      | None => names_loop db_manager items' countries productions
      end
  end.

(** [create_production_by_country_pie_chart] up to the figure: the result
    is the pair handed to [go.Pie(labels=countries, values=productions)]. *)
Definition create_production_by_country_pie_chart
    (db_manager : DatabaseManager.t) (mineral_id : Z)
  : result (list string * list Z) :=
  stats <- DataController.get_production_by_mineral db_manager mineral_id ;;
  country_production <- aggregate_production_by_country stats ;;
  names_loop db_manager (dict_items country_production) [] [].

(** Truth value of an optional id argument ([if mineral_id:]): [None]
    and [0] are both false. *)
Definition id_given (id : option Z) : bool :=
  match id with
  | None => false
  | Some z => negb (Z.eqb z 0)
  end.

(** "Get production statistics": the selection shared by
    [create_production_trend_chart] and [create_export_value_chart]. *)
Definition chart_stats (db_manager : DatabaseManager.t)
    (mineral_id country_id : option Z) : result (list ProductionStats.t) :=
  if id_given mineral_id
  then DataController.get_production_by_mineral db_manager
         (match mineral_id with Some m => m | None => 0 end)
  else if id_given country_id
  then DataController.get_production_by_country db_manager
         (match country_id with Some c => c | None => 0 end)
  else DataController.get_all_production_stats db_manager.

(** The charts up to the figure: the result is the data of the trace,
    [x] first. *)
Definition create_production_trend_chart (db_manager : DatabaseManager.t)
    (mineral_id country_id : option Z) : result (list Z * list Z) :=
  stats <- chart_stats db_manager mineral_id country_id ;;
  let years := map ProductionStats.get_year stats in
  let production := map ProductionStats.get_production stats in
  Ok (years, production).

Definition create_export_value_chart (db_manager : DatabaseManager.t)
    (mineral_id country_id : option Z) : result (list Z * list float) :=
  stats <- chart_stats db_manager mineral_id country_id ;;
  let years := map ProductionStats.get_year stats in
  let export_values := map ProductionStats.get_export_value stats in
  Ok (years, export_values).

Definition create_mineral_price_comparison_chart
    (db_manager : DatabaseManager.t) : result (list string * list float) :=
  minerals <- DataController.get_all_minerals db_manager ;;
  let mineral_names := map Mineral.get_name minerals in
  let prices := map Mineral.get_market_price minerals in
  Ok (mineral_names, prices).

Definition create_country_gdp_chart (db_manager : DatabaseManager.t)
  : result (list string * list float * list float) :=
  countries <- DataController.get_all_countries db_manager ;;
  let country_names := map Country.get_name countries in
  let gdp_values := map Country.get_gdp countries in
  let mining_revenues := map Country.get_mining_revenue countries in
  Ok (country_names, gdp_values, mining_revenues).

(** A marker of the sites map. The popup is an HTML text built from the
    site name, the two resolved names, the production and the
    coordinates; the marker keeps these values instead of the text. *)
Record marker : Type := mkMarker {
  location : float * float;
  popup_site : string;
  popup_country : string;
  popup_mineral : string;
  popup_production : Z;
  tooltip : string;
  color : string;
  icon : string
}.

(** "Choose marker color based on production volume". *)
Definition marker_style (production : Z) : string * string :=
  if production >? 500000 then ("red", "star")
  else if production >? 200000 then ("orange", "certificate")
  else ("blue", "map-marker").

(** The body of the loop of [create_mining_sites_map] for one site. *)
Definition site_marker (db_manager : DatabaseManager.t) (site : Site.t)
  : result marker :=
  mineral <- DataController.get_mineral_by_id db_manager
               (Site.get_mineral_id site) ;;
  let mineral_name :=
    match mineral with
    | Some mineral => Mineral.get_name mineral
    | None => "Unknown"
    end in
  country <- DataController.get_country_by_id db_manager
               (Site.get_country_id site) ;;
  let country_name :=
    match country with
    | Some country => Country.get_name country
    | None => "Unknown"
    end in
  let style := marker_style (Site.get_production site) in
  Ok (mkMarker (Site.get_latitude site, Site.get_longitude site)
               (Site.get_name site) country_name mineral_name
               (Site.get_production site) (Site.get_name site)
               (fst style) (snd style)).

(** [create_mining_sites_map] up to the rendering: the markers added to
    the map, in the order of the sites. *)
Definition create_mining_sites_map (db_manager : DatabaseManager.t)
  : result (list marker) :=
  sites <- DataController.get_all_sites db_manager ;;
  for_each (site_marker db_manager) sites.

(** A marker of the map of one country (green, icon "industry"): its
    popup shows the site, the resolved mineral name and the production. *)
Record site_pin : Type := mkSitePin {
  pin_location : float * float;
  pin_site : string;
  pin_mineral : string;
  pin_production : Z;
  pin_tooltip : string
}.

(** The body of the marker loop of [create_country_sites_map]. *)
Definition country_site_pin (db_manager : DatabaseManager.t) (site : Site.t)
  : result site_pin :=
  mineral <- DataController.get_mineral_by_id db_manager
               (Site.get_mineral_id site) ;;
  let mineral_name :=
    match mineral with
    | Some mineral => Mineral.get_name mineral
    | None => "Unknown"
    end in
  Ok (mkSitePin (Site.get_latitude site, Site.get_longitude site)
                (Site.get_name site) mineral_name (Site.get_production site)
                (Site.get_name site)).

(** What [create_country_sites_map] returns: the message for a country
    without sites, or a map. The map is centred on the mean latitude and
    longitude of the sites; the model keeps the coordinates that are
    averaged instead of the two means. *)
Inductive country_sites_map : Type :=
| MapMessage (html : string)
| SitesMap (centred_on : list (float * float)) (pins : list site_pin).

Definition create_country_sites_map (db_manager : DatabaseManager.t)
    (country_id : Z) : result country_sites_map :=
  sites <- DataController.get_sites_by_country db_manager country_id ;;
  match sites with
  | [] => Ok (MapMessage "<p>No mining sites found for this country.</p>")
  | _ :: _ =>
      let centred_on := map Site.get_coordinates sites in
      pins <- for_each (country_site_pin db_manager) sites ;;
      Ok (SitesMap centred_on pins)
  end.

End VisualizationController.

(* ================================================================== *)
(** * app.py: the detail routes *)
(* ================================================================== *)

Module App.

(** What a view returns: a redirect (with the messages flashed before
    it) or a rendered template with the data put in its context. A chart
    or map of the context is the data it is drawn from. The trend and
    export charts of the mineral page, which its view builds after the
    pie chart, are left out of the context. *)
Inductive response : Type :=
| Redirect (endpoint : string) (flashed : list (string * string))
| RenderMineralDetail (mineral : option Mineral.t)
    (production_stats : list ProductionStats.t) (sites : list Site.t)
    (production_pie_chart : option (list string * list Z))
| RenderCountryDetail (country : Country.t)
    (production_stats : list ProductionStats.t) (sites : list Site.t)
    (production_trend_chart : option (list Z * list Z))
    (export_value_chart : option (list Z * list float))
    (country_map : option VisualizationController.country_sites_map).

(** The names bound in the module's global namespace: its imports, its
    assignments and its function definitions. *)
Definition module_globals : list string :=
  [ "Flask"; "render_template"; "request"; "redirect"; "url_for"; "session";
    "flash"; "AuthController"; "DataController"; "VisualizationController";
    "wraps"; "app"; "auth_controller"; "data_controller"; "viz_controller";
    "login_required"; "index"; "login"; "logout"; "dashboard"; "minerals";
    "mineral_detail"; "countries"; "country_detail"; "sites"; "admin_users";
    "page_not_found"; "internal_server_error"; "analytics"; "mining_map" ].

(** Evaluating a global name that is no builtin: the object bound to it,
    or [NameError]. None of the module's globals is bound to [None]. *)
Inductive pyobject : Type :=
| PyNone
| PyGlobal (name : string).

Definition load_global (name : string) : result pyobject :=
  if str_in name module_globals then Ok (PyGlobal name)
  else Raise (NameError name).

Definition is_None (o : pyobject) : bool :=
  match o with
  | PyNone => true
  | PyGlobal _ => false
  end.

(** The wrapper installed by [@login_required]. *)
Definition login_required (session : list (string * value))
    (f : result response) : result response :=
  if negb (dict_contains String.eqb "user_id" session)
  then Ok (Redirect "login" [("Please log in to access this page.", "warning")])
  else f.

(** [mineral_detail(mineral_id)]; the test of its guard is the expression
    [Mineral is None], on the global name [Mineral]. *)
Definition mineral_detail_body (db_manager : DatabaseManager.t)
    (mineral_id : Z) : result response :=
  mineral <- DataController.get_mineral_by_id db_manager mineral_id ;;
  Mineral_ <- load_global "Mineral" ;;
  if is_None Mineral_
  then Ok (Redirect "minerals" [("Mineral not found.", "danger")])
  else
    production_stats <-
      DataController.get_production_by_mineral db_manager mineral_id ;;
    sites <- DataController.get_sites_by_mineral db_manager mineral_id ;;
    production_pie_chart <-
      match production_stats with
      | [] => Ok None
      | _ :: _ =>
          pie <- VisualizationController.create_production_by_country_pie_chart
                   db_manager mineral_id ;;
          Ok (Some pie)
      end ;;
    Ok (RenderMineralDetail mineral production_stats sites production_pie_chart).

Definition mineral_detail (db_manager : DatabaseManager.t)
    (session : list (string * value)) (mineral_id : Z) : result response :=
  login_required session (mineral_detail_body db_manager mineral_id).

(** [country_detail(country_id)]; its guard tests the local variable. *)
Definition country_detail_body (db_manager : DatabaseManager.t)
    (country_id : Z) : result response :=
  country <- DataController.get_country_by_id db_manager country_id ;;
  match country with
  | None => Ok (Redirect "countries" [("Country not found.", "danger")])
  | Some country =>
      production_stats <-
        DataController.get_production_by_country db_manager country_id ;;
      sites <- DataController.get_sites_by_country db_manager country_id ;;
      charts <-
        match production_stats with
        | [] => Ok (None, None)
        | _ :: _ =>
            production_trend_chart <-
              VisualizationController.create_production_trend_chart
                db_manager None (Some country_id) ;;
            export_value_chart <-
              VisualizationController.create_export_value_chart
                db_manager None (Some country_id) ;;
            Ok (Some production_trend_chart, Some export_value_chart)
        end ;;
      country_map <-
        match sites with
        | [] => Ok None
        | _ :: _ =>
            country_map <-
              VisualizationController.create_country_sites_map
                db_manager country_id ;;
            Ok (Some country_map)
        end ;;
      Ok (RenderCountryDetail country production_stats sites
            (fst charts) (snd charts) country_map)
  end.

Definition country_detail (db_manager : DatabaseManager.t)
    (session : list (string * value)) (country_id : Z) : result response :=
  login_required session (country_detail_body db_manager country_id).

(** ** The session routes

    The Flask session is a dict that the views read and write; a view
    below takes the session and returns its reply with the session it
    leaves behind. *)

Inductive reply : Type :=
| ReplyRedirect (endpoint : string) (flashed : list (string * string))
| ReplyRender (template : string) (flashed : list (string * string))
    (context : list (string * option value)).

Inductive http_method : Type := GET | POST.

(** [index()]. *)
Definition index (session : list (string * value)) : reply :=
  if dict_contains String.eqb "user_id" session
  then ReplyRedirect "dashboard" []
  else ReplyRedirect "login" [].

Section Login.
Variable check_password_hash : string -> string -> bool.

(** [login()], for a form that carries both fields. *)
Definition login (db_manager : DatabaseManager.t)
    (session : list (string * value)) (method : http_method)
    (username password : string)
  : result (reply * list (string * value)) :=
  match method with
  | POST =>
      user <- AuthController.authenticate_user check_password_hash
                db_manager username password ;;
      match user with
      | Some user =>
          role <- AuthController.get_user_role db_manager
                    (User.get_role_id user) ;;
          let session :=
            dict_set String.eqb "user_id" (VInt (User.get_id user)) session in
          let session :=
            dict_set String.eqb "username" (VStr (User.get_username user))
                     session in
          let session :=
            dict_set String.eqb "role_id" (VInt (User.get_role_id user))
                     session in
          let session :=
            dict_set String.eqb "role_name"
              (VStr (match role with
                     | Some role => Role.get_name role
                     | None => "Unknown"
                     end))
              session in
          let session :=
            dict_set String.eqb "email" (VStr (User.get_email user)) session in
          Ok (ReplyRedirect "dashboard"
                [("Welcome, " ++ User.get_username user ++ "!", "success")],
              session)
      | None =>
          Ok (ReplyRender "login.html"
                [("Invalid username or password. Please try again.", "danger")]
                [],
              session)
      end
  | GET => Ok (ReplyRender "login.html" [] [], session)
  end.
End Login.

Section Logout.
(** [str(x)] for a float, as the f-string of [logout] would print it. *)
Variable float_str : float -> string.

Definition format_value (v : value) : string :=
  match v with
  | VStr s => s
  | VInt z => str_of_int z
  | VFloat f => float_str f
  end.

(** [logout()]: the session is cleared. *)
Definition logout (session : list (string * value))
  : reply * list (string * value) :=
  let username :=
    match dict_get String.eqb "username" session with
    | Some v => v
    | None => VStr "User"
    end in
  (ReplyRedirect "login"
     [("Goodbye, " ++ format_value username ++ "! You have been logged out.",
       "info")],
   []).
End Logout.

(** The wrapper of [@login_required] around a view that gives a
    [reply]. *)
Definition login_required_reply (session : list (string * value))
    (f : result reply) : result reply :=
  if negb (dict_contains String.eqb "user_id" session)
  then Ok (ReplyRedirect "login"
             [("Please log in to access this page.", "warning")])
  else f.

(** [dashboard()]. *)
Definition dashboard (db_manager : DatabaseManager.t)
    (session : list (string * value)) : result reply :=
  login_required_reply session
    (countries <- DataController.get_all_countries db_manager ;;
     minerals <- DataController.get_all_minerals db_manager ;;
     sites <- DataController.get_all_sites db_manager ;;
     Ok (ReplyRender "dashboard.html" []
           [ ("username", dict_get String.eqb "username" session);
             ("role_name", dict_get String.eqb "role_name" session);
             ("countries_count",
               Some (VInt (Z.of_nat (List.length countries))));
             ("minerals_count",
               Some (VInt (Z.of_nat (List.length minerals))));
             ("sites_count", Some (VInt (Z.of_nat (List.length sites)))) ])).

End App.

(* ================================================================== *)
(** * hash_passwords.py *)
(* ================================================================== *)

Module HashPasswords.

(** The two files the script touches; [None] is a file that does not
    exist. *)
Record files : Type := mkFiles {
  users_file : option (list UsersCsv.row);
  backup_file : option (list UsersCsv.row)
}.

Section Werkzeug.
(** [werkzeug.security.generate_password_hash(password)] draws a fresh
    random salt at every call; the first argument, the position of the
    call, stands for that draw. *)
Variable generate_password_hash : nat -> string -> string.

(** "Hash passwords": the loop over [users_df.iterrows()], from row
    number [index] on. *)
Fixpoint hash_loop (index : nat) (rows : list UsersCsv.row) : list string :=
  match rows with
  | [] => []
  | row :: rows' =>
      generate_password_hash index (UsersCsv.PasswordHash row)
      :: hash_loop (S index) rows'
  end.

(** [users_df['PasswordHash'] = hashed_passwords]. *)
Fixpoint set_password_column (rows : list UsersCsv.row)
    (hashed_passwords : list string) : list UsersCsv.row :=
  match rows, hashed_passwords with
  | row :: rows', h :: hashed' =>
      {| UsersCsv.UserID := UsersCsv.UserID row;
         UsersCsv.Username := UsersCsv.Username row;
         UsersCsv.PasswordHash := h;
         UsersCsv.RoleID := UsersCsv.RoleID row;
         UsersCsv.Email := UsersCsv.Email row |}
      :: set_password_column rows' hashed'
  | _, _ => []
  end.

(** [hash_user_passwords()]: what it leaves on disk. *)
Definition hash_user_passwords (fs : files) : files :=
  match users_file fs with
  | None => fs
  | Some users_df =>
      let backup := users_df in
      let hashed_passwords := hash_loop 0 users_df in
      let users_df := set_password_column users_df hashed_passwords in
      mkFiles (Some users_df) (Some backup)
  end.

(** The [__main__] block: the answer typed at the prompt decides. *)
Definition main (response : string) (fs : files) : files :=
  let response := lower response in
  if str_in response ["yes"; "y"] then hash_user_passwords fs else fs.
End Werkzeug.

End HashPasswords.

(* ================================================================== *)
(** * Specification-side definitions *)
(* ================================================================== *)

Module Spec.


(** No character of [s] is [c]. *)
Fixpoint lacks (c : ascii) (s : string) : bool :=
  match s with
  | EmptyString => true
  | String c' s' => negb (Ascii.eqb c' c) && lacks c s'
  end.


(** The ids of [ids] in the order of their first occurrence, skipping
    the ones already in [seen]. *)
Fixpoint first_seen (seen ids : list Z) : list Z :=
  match ids with
  | [] => []
  | i :: ids' =>
      if existsb (Z.eqb i) seen then first_seen seen ids'
      else i :: first_seen (i :: seen) ids'
  end.

(** Total production of the rows of one country. *)
Definition sum_for (country_id : Z) (stats : list ProductionStats.t) : Z :=
  fold_right Z.add 0
    (map ProductionStats.production_tonnes
       (filter (fun s => Z.eqb (ProductionStats.country_id s) country_id) stats)).

(** Loop invariant of the aggregation: a group already in the dict grows
    by the sum of the records still to come, and a country id met for the
    first time opens a group with that sum. *)
Definition bump (stats : list ProductionStats.t) (kv : Z * Z) : Z * Z :=
  (fst kv, snd kv + sum_for (fst kv) stats).

Definition fresh (stats : list ProductionStats.t) (k : Z) : Z * Z :=
  (k, sum_for k stats).

(** Grouping by country id as the specification words it: one group per
    country id, in first-seen order, holding the sum of the group. *)
Definition group_by_country (stats : list ProductionStats.t) : list (Z * Z) :=
  map (fun country_id => (country_id, sum_for country_id stats))
      (first_seen [] (map ProductionStats.country_id stats)).

(** The groups whose country id has a row in the country table, under
    the name of the first such row. *)
Definition known_groups (countries : list CountriesCsv.row)
    (groups : list (Z * Z)) : list (string * Z) :=
  flat_map
    (fun g =>
       match find (fun r => Z.eqb (CountriesCsv.CountryID r) (fst g)) countries with
       | Some r => [(CountriesCsv.CountryName r, snd g)]
       | None => []
       end)
    groups.

(** [getProductionByCountry(c)] for every known country [c], in the order
    of [getAllCountries]. *)
Definition production_by_known_countries (db_manager : DatabaseManager.t)
  : result (list (list ProductionStats.t)) :=
  countries <- DataController.get_all_countries db_manager ;;
  for_each (fun c => DataController.get_production_by_country db_manager
                       (Country.get_id c))
           countries.

(** The groups taken together are the full set of rows, each row once. *)
Definition partitions_exactly (db_manager : DatabaseManager.t) : Prop :=
  exists groups all,
    production_by_known_countries db_manager = Ok groups /\
    DataController.get_all_production_stats db_manager = Ok all /\
    Permutation (List.concat groups) all.

End Spec.

(* ================================================================== *)
(** * Round trip of a row through its entity *)
(* ================================================================== *)

Module RoundTrip.

(** Two scalars are the same value: the same text, the same number, or
    an integer and the binary64 number that is its exact value (an
    integer below 2^53 in magnitude and its conversion). *)
Definition same_value (a b : value) : Prop :=
  match a, b with
  | VInt x, VInt y => x = y
  | VFloat x, VFloat y => x = y
  | VStr x, VStr y => x = y
  | VInt x, VFloat y => y = float_of_Z x /\ Z.abs x < 2 ^ 53
  | VFloat x, VInt y => x = float_of_Z y /\ Z.abs y < 2 ^ 53
  | _, _ => False
  end.

(** The stored fields of a user row. *)
Definition user_cells (row : UsersCsv.row) : list value :=
  [ VInt (UsersCsv.UserID row); VStr (UsersCsv.Username row);
    VStr (UsersCsv.PasswordHash row); VInt (UsersCsv.RoleID row);
    VStr (UsersCsv.Email row) ].

(** The round trip as stated, for the User type: every row of the users
    file comes back as an entity with the row's id whose serialisation
    holds every stored field of the row. *)
Definition users_round_trip (db_manager : DatabaseManager.t) : Prop :=
  forall users row,
    DatabaseManager.users_file db_manager = Some users ->
    In row users ->
    exists all user,
      AuthController.get_all_users db_manager = Ok all /\
      In user all /\
      User.get_id user = UsersCsv.UserID row /\
      forall v, In v (user_cells row) -> In v (map snd (User.to_dict user)).

End RoundTrip.

(* ================================================================== *)
(** * A small store used in the examples *)
(* ================================================================== *)

Module Demo.

(** A stand-in for werkzeug's hash check: the stored hash of a password
    is the password behind a fixed prefix. *)
Definition check_password_hash (pwhash password : string) : bool :=
  String.eqb pwhash ("plain$" ++ password).

Definition alice : UsersCsv.row :=
  {| UsersCsv.UserID := 1; UsersCsv.Username := "alice";
     UsersCsv.PasswordHash := "plain$wonderland"; UsersCsv.RoleID := 1;
     UsersCsv.Email := "alice@example.org" |}.

Definition administrator : RolesCsv.row :=
  {| RolesCsv.RoleID := 1; RolesCsv.RoleName := "Administrator";
     RolesCsv.Permissions := "manage_users, view_reports" |}.

Definition zambia : CountriesCsv.row :=
  {| CountriesCsv.CountryID := 1; CountriesCsv.CountryName := "Zambia";
     CountriesCsv.GDP_BillionUSD := 100%float;
     CountriesCsv.MiningRevenue_BillionUSD := 25%float;
     CountriesCsv.KeyProjects := "Kansanshi" |}.

Definition chile : CountriesCsv.row :=
  {| CountriesCsv.CountryID := 2; CountriesCsv.CountryName := "Chile";
     CountriesCsv.GDP_BillionUSD := 300%float;
     CountriesCsv.MiningRevenue_BillionUSD := 45%float;
     CountriesCsv.KeyProjects := "Escondida" |}.

Definition copper : MineralsCsv.row :=
  {| MineralsCsv.MineralID := 1; MineralsCsv.MineralName := "Copper";
     MineralsCsv.Description := "Conductor metal";
     MineralsCsv.MarketPriceUSD_per_tonne := 9000%float |}.

Definition stat (stat_id country_id production : Z) : ProductionStatsCsv.row :=
  {| ProductionStatsCsv.StatID := stat_id; ProductionStatsCsv.Year := 2023;
     ProductionStatsCsv.CountryID := country_id;
     ProductionStatsCsv.MineralID := 1;
     ProductionStatsCsv.Production_tonnes := production;
     ProductionStatsCsv.ExportValue_BillionUSD := 2%float |}.

(** All six files present and consistent. *)
Definition db : DatabaseManager.t :=
  DatabaseManager.new (Some [alice]) (Some [administrator])
    (Some [zambia; chile]) (Some [copper])
    (Some [stat 1 1 100; stat 2 2 50; stat 3 1 30]) (Some []).

(** A production row that points to country 3, which no country row has. *)
Definition db_dangling : DatabaseManager.t :=
  DatabaseManager.new (Some [alice]) (Some [administrator])
    (Some [zambia; chile]) (Some [copper])
    (Some [stat 1 1 100; stat 2 3 50]) (Some []).

(** The data folder is empty: none of the six files exists. *)
Definition db_missing : DatabaseManager.t :=
  DatabaseManager.new None None None None None None.

(** A session after a successful login. *)
Definition session : list (string * value) :=
  [("user_id", VInt 1); ("username", VStr "alice"); ("role_id", VInt 1)].

End Demo.

(* ================================================================== *)
(** * Further sample data and measures *)
(* ================================================================== *)

Module Sample.

(** A stand-in for werkzeug's hash generation that matches
    [Demo.check_password_hash]. *)
Definition generate_password_hash (call : nat) (password : string) : string :=
  "plain$" ++ password.

Definition kansanshi : SitesCsv.row :=
  {| SitesCsv.SiteID := 1; SitesCsv.SiteName := "Kansanshi";
     SitesCsv.CountryID := 1; SitesCsv.MineralID := 1;
     SitesCsv.Latitude := (-12)%float; SitesCsv.Longitude := 26%float;
     SitesCsv.Production_tonnes := 600000 |}.

Definition orphan_site : SitesCsv.row :=
  {| SitesCsv.SiteID := 2; SitesCsv.SiteName := "Orphan";
     SitesCsv.CountryID := 9; SitesCsv.MineralID := 9;
     SitesCsv.Latitude := 0%float; SitesCsv.Longitude := 0%float;
     SitesCsv.Production_tonnes := 300000 |}.

(** The consistent store of [Demo], with two sites. *)
Definition db : DatabaseManager.t :=
  DatabaseManager.new (Some [Demo.alice]) (Some [Demo.administrator])
    (Some [Demo.zambia; Demo.chile]) (Some [Demo.copper])
    (Some [Demo.stat 1 1 100; Demo.stat 2 2 50; Demo.stat 3 1 30])
    (Some [kansanshi; orphan_site]).



(** The store of [db] without its minerals file. *)
Definition db_no_minerals : DatabaseManager.t :=
  DatabaseManager.new (Some [Demo.alice]) (Some [Demo.administrator])
    (Some [Demo.zambia; Demo.chile]) None
    (Some [Demo.stat 1 1 100; Demo.stat 2 2 50; Demo.stat 3 1 30])
    (Some [kansanshi; orphan_site]).

(** The users file before the migration: the password column holds the
    plain text. *)
Definition alice_plain : UsersCsv.row :=
  {| UsersCsv.UserID := 1; UsersCsv.Username := "alice";
     UsersCsv.PasswordHash := "wonderland"; UsersCsv.RoleID := 1;
     UsersCsv.Email := "alice@example.org" |}.

Definition files_before : HashPasswords.files :=
  HashPasswords.mkFiles (Some [alice_plain]) None.

(** Sum of the values of a dict, and of the production of records. *)
Definition total (d : list (Z * Z)) : Z := fold_right Z.add 0 (map snd d).

Definition total_production (stats : list ProductionStats.t) : Z :=
  fold_right Z.add 0 (map ProductionStats.get_production stats).

(** The users table with its password column rewritten by the hashes
    generated from call number [index] on. *)
Definition migrate (generate_password_hash : nat -> string -> string)
    (index : nat) (rows : list UsersCsv.row) : list UsersCsv.row :=
  HashPasswords.set_password_column rows
    (HashPasswords.hash_loop generate_password_hash index rows).

(** The marker of a site on the map of its country, with the mineral
    name resolved in the given minerals table. *)
Definition pin_of (minerals : list MineralsCsv.row) (site : Site.t)
  : VisualizationController.site_pin :=
  VisualizationController.mkSitePin
    (Site.get_latitude site, Site.get_longitude site)
    (Site.get_name site)
    match find (fun r => Z.eqb (MineralsCsv.MineralID r)
                               (Site.get_mineral_id site)) minerals with
    | Some r => MineralsCsv.MineralName r
    | None => "Unknown"
    end
    (Site.get_production site) (Site.get_name site).

(** The rows of a file, none when the file does not exist. *)
Definition rows_or_empty {R : Type} (file : option (list R)) : list R :=
  match file with
  | Some rs => rs
  | None => []
  end.

End Sample.

(* ================================================================== *)
(** * Derived values of the entities *)
(* ================================================================== *)

Lemma float_of_Z_100 : float_of_Z 100 = 100%float.
Proof. reflexivity. Qed.

Lemma float_of_Z_1e9 : float_of_Z 1000000000 = 1000000000%float.
Proof. reflexivity. Qed.

(** C6. The mining-contribution percentage of a country is
    revenue / GDP * 100 when GDP > 0 and 0 otherwise; a GDP of 0 gives 0
    whatever the revenue, and GDP = 100 with revenue = 25 gives 25.0. *)
Theorem mining_contribution_percentage_spec :
  (forall c : Country.t,
      (0 <? Country.gdp_billion_usd c)%float = true ->
      Country.get_mining_contribution_percentage c
      = (Country.mining_revenue_billion_usd c / Country.gdp_billion_usd c
         * 100)%float) /\
  (forall c : Country.t,
      (0 <? Country.gdp_billion_usd c)%float = false ->
      Country.get_mining_contribution_percentage c = 0%float) /\
  (forall id name revenue projects,
      Country.get_mining_contribution_percentage
        (Country.new id name 0%float revenue projects) = 0%float) /\
  (forall id name projects,
      Country.get_mining_contribution_percentage
        (Country.new id name 100%float 25%float projects) = 25%float).
Proof.
  unfold Country.get_mining_contribution_percentage.
  split; [|split; [|split]].
  - intros c Hpos. rewrite Hpos, float_of_Z_100. reflexivity.
  - intros c Hnon. rewrite Hnon. reflexivity.
  - intros. reflexivity.
  - intros. reflexivity.
Qed.

Lemma mining_contribution_percentage_witness :
  Country.get_mining_contribution_percentage
    (Country.new 7 "Zambia" 40%float 10%float "Kansanshi")
  = (10 / 40 * 100)%float
  /\ Country.get_mining_contribution_percentage
       (Country.new 8 "Nowhere" (-3)%float 10%float "")
     = 0%float.
Proof.
  split.
  - apply (proj1 mining_contribution_percentage_spec). reflexivity.
  - apply (proj1 (proj2 mining_contribution_percentage_spec)). reflexivity.
Defined.

(** C7. The average price per tonne of a production record is
    export value * 1e9 / production when production > 0 and 0 otherwise;
    production = 0 gives 0, and an export value of 2.0 (billion USD) with
    a production of 1_000_000 tonnes gives 2000.0. *)
Theorem average_price_per_tonne_spec :
  (forall s : ProductionStats.t,
      0 < ProductionStats.production_tonnes s ->
      ProductionStats.get_average_price_per_tonne s
      = (ProductionStats.export_value_billion_usd s * 1000000000
         / float_of_Z (ProductionStats.production_tonnes s))%float) /\
  (forall s : ProductionStats.t,
      ProductionStats.production_tonnes s <= 0 ->
      ProductionStats.get_average_price_per_tonne s = 0%float) /\
  (forall id year country mineral export,
      ProductionStats.get_average_price_per_tonne
        (ProductionStats.new id year country mineral 0 export) = 0%float) /\
  (forall id year country mineral,
      ProductionStats.get_average_price_per_tonne
        (ProductionStats.new id year country mineral 1000000 2%float)
      = 2000%float).
Proof.
  unfold ProductionStats.get_average_price_per_tonne.
  split; [|split; [|split]].
  - intros s Hpos.
    replace (ProductionStats.production_tonnes s >? 0) with true
      by (symmetry; apply Z.gtb_lt; exact Hpos).
    rewrite float_of_Z_1e9. reflexivity.
  - intros s Hnon.
    replace (ProductionStats.production_tonnes s >? 0) with false
      by (symmetry; rewrite Z.gtb_ltb; apply Z.ltb_ge; exact Hnon).
    reflexivity.
  - intros. reflexivity.
  - intros. reflexivity.
Qed.

Lemma average_price_per_tonne_witness :
  ProductionStats.get_average_price_per_tonne
    (ProductionStats.new 1 2021 3 4 500 1%float)
  = (1 * 1000000000 / float_of_Z 500)%float
  /\ ProductionStats.get_average_price_per_tonne
       (ProductionStats.new 2 2021 3 4 (-5) 1%float)
     = 0%float.
Proof.
  split.
  - apply (proj1 average_price_per_tonne_spec). simpl. lia.
  - apply (proj1 (proj2 average_price_per_tonne_spec)). simpl. lia.
Defined.

(* ================================================================== *)
(** * Role permissions *)
(* ================================================================== *)

Section SplitStrip.
Variable sep : ascii.



End SplitStrip.




Lemma str_in_In (x : string) (xs : list string) :
  str_in x xs = true <-> In x xs.
Proof.
  unfold str_in. rewrite existsb_exists. split.
  - intros [y [Hin Heq]]. apply String.eqb_eq in Heq. now subst.
  - intros Hin. exists x. split; [assumption|apply String.eqb_refl].
Qed.



(* ================================================================== *)
(** * Point lookups of the database manager *)
(* ================================================================== *)

Lemma hd_error_filter {A : Type} (p : A -> bool) (l : list A) :
  hd_error (filter p l) = find p l.
Proof.
  induction l as [|x l IH]; simpl; [reflexivity|].
  destruct (p x); [reflexivity|exact IH].
Qed.

Lemma first_or_none_frame {R : Type} (c : string) (cs : list string)
    (l : list R) :
  DatabaseManager.first_or_none (mkDataFrame (c :: cs) l) = Ok (hd_error l).
Proof. destruct l; reflexivity. Qed.

Lemma first_or_none_no_columns {R : Type} :
  DatabaseManager.first_or_none (DataFrame_new R) = Ok None.
Proof. reflexivity. Qed.

Lemma select_first {R V : Type} (eqb : V -> V -> bool) (c : string)
    (cs : list string) (l : list R) (label : string) (cell : R -> V) (v : V) :
  str_in label (c :: cs) = true ->
  bind (select_eq eqb (mkDataFrame (c :: cs) l) label cell v)
       (fun df => DatabaseManager.first_or_none df)
  = Ok (find (fun r => eqb (cell r) v) l).
Proof.
  intros H. unfold select_eq. cbn [columns rows]. rewrite H. cbn [bind].
  rewrite first_or_none_frame, hd_error_filter. reflexivity.
Qed.

Lemma get_user_by_username_present (db : DatabaseManager.t)
    (users : list UsersCsv.row) (username : string) :
  DatabaseManager.users_file db = Some users ->
  DatabaseManager.get_user_by_username db username
  = Ok (find (fun r => String.eqb (UsersCsv.Username r) username) users).
Proof.
  intros H. unfold DatabaseManager.get_user_by_username,
    DatabaseManager.load_users, DatabaseManager.load, read_csv.
  rewrite H. cbn [bind]. apply select_first. reflexivity.
Qed.

Lemma get_role_by_id_present (db : DatabaseManager.t)
    (roles : list RolesCsv.row) (role_id : Z) :
  DatabaseManager.roles_file db = Some roles ->
  DatabaseManager.get_role_by_id db role_id
  = Ok (find (fun r => Z.eqb (RolesCsv.RoleID r) role_id) roles).
Proof.
  intros H. unfold DatabaseManager.get_role_by_id,
    DatabaseManager.load_roles, DatabaseManager.load, read_csv.
  rewrite H. cbn [bind]. apply select_first. reflexivity.
Qed.

Lemma get_country_by_id_present (db : DatabaseManager.t)
    (countries : list CountriesCsv.row) (country_id : Z) :
  DatabaseManager.countries_file db = Some countries ->
  DatabaseManager.get_country_by_id db country_id
  = Ok (find (fun r => Z.eqb (CountriesCsv.CountryID r) country_id) countries).
Proof.
  intros H. unfold DatabaseManager.get_country_by_id,
    DatabaseManager.load_countries, DatabaseManager.load, read_csv.
  rewrite H. cbn [bind]. apply select_first. reflexivity.
Qed.

Lemma get_mineral_by_id_present (db : DatabaseManager.t)
    (minerals : list MineralsCsv.row) (mineral_id : Z) :
  DatabaseManager.minerals_file db = Some minerals ->
  DatabaseManager.get_mineral_by_id db mineral_id
  = Ok (find (fun r => Z.eqb (MineralsCsv.MineralID r) mineral_id) minerals).
Proof.
  intros H. unfold DatabaseManager.get_mineral_by_id,
    DatabaseManager.load_minerals, DatabaseManager.load, read_csv.
  rewrite H. cbn [bind]. apply select_first. reflexivity.
Qed.

Lemma find_none_iff {A : Type} (p : A -> bool) (l : list A) :
  find p l = None <-> forall x, In x l -> p x = false.
Proof.
  split.
  - intros H x Hin. exact (find_none p l H x Hin).
  - induction l as [|y l IH]; intros H; simpl; [reflexivity|].
    rewrite (H y (or_introl eq_refl)). apply IH.
    intros x Hin. apply H. now right.
Qed.

(* ================================================================== *)
(** * Authentication *)
(* ================================================================== *)

Section Authentication.
Variable check_password_hash : string -> string -> bool.

Lemma authenticate_user_present (db : DatabaseManager.t)
    (users : list UsersCsv.row) (username password : string) :
  DatabaseManager.users_file db = Some users ->
  AuthController.authenticate_user check_password_hash db username password
  = Ok (match find (fun r => String.eqb (UsersCsv.Username r) username) users with
        | None => None
        | Some r =>
            if check_password_hash (UsersCsv.PasswordHash r) password
            then Some (User.new (UsersCsv.UserID r) (UsersCsv.Username r)
                                (UsersCsv.PasswordHash r) (UsersCsv.RoleID r)
                                (UsersCsv.Email r))
            else None
        end).
Proof.
  intros H. unfold AuthController.authenticate_user.
  rewrite (get_user_by_username_present db users username H). cbn.
  destruct (find _ users) as [r|]; [|reflexivity].
  unfold DatabaseManager.verify_password.
  destruct (check_password_hash _ _); reflexivity.
Qed.

Lemma authenticate_user_missing (db : DatabaseManager.t)
    (username password : string) :
  DatabaseManager.users_file db = None ->
  AuthController.authenticate_user check_password_hash db username password
  = Raise (KeyError (VStr "Username")).
Proof.
  intros H. unfold AuthController.authenticate_user,
    DatabaseManager.get_user_by_username, DatabaseManager.load_users,
    DatabaseManager.load, read_csv.
  rewrite H. reflexivity.
Qed.

(** C3. In a user store, a user name that no row carries and a user name
    that a row carries, given a password that the stored hash of that row
    rejects, both make [authenticate_user] return [None]: the two
    failures are the same value. *)
Theorem authenticate_user_failure_indistinguishable
    (db : DatabaseManager.t) (users : list UsersCsv.row)
    (unknown known : string) (row : UsersCsv.row)
    (password wrong_password : string) :
  DatabaseManager.users_file db = Some users ->
  (forall r, In r users -> UsersCsv.Username r <> unknown) ->
  find (fun r => String.eqb (UsersCsv.Username r) known) users = Some row ->
  check_password_hash (UsersCsv.PasswordHash row) wrong_password = false ->
  AuthController.authenticate_user check_password_hash db unknown password
  = Ok None /\
  AuthController.authenticate_user check_password_hash db known wrong_password
  = Ok None /\
  AuthController.authenticate_user check_password_hash db unknown password
  = AuthController.authenticate_user check_password_hash db known
      wrong_password.
Proof.
  intros Hfile Hunknown Hknown Hwrong.
  assert (H1 : AuthController.authenticate_user check_password_hash db
                 unknown password = Ok None).
  { rewrite (authenticate_user_present db users _ _ Hfile).
    replace (find _ users) with (@None UsersCsv.row); [reflexivity|].
    symmetry. apply find_none_iff. intros r Hin.
    apply String.eqb_neq. exact (Hunknown r Hin). }
  assert (H2 : AuthController.authenticate_user check_password_hash db
                 known wrong_password = Ok None).
  { rewrite (authenticate_user_present db users _ _ Hfile).
    rewrite Hknown, Hwrong. reflexivity. }
  split; [exact H1|]. split; [exact H2|]. rewrite H1, H2. reflexivity.
Qed.

(** C10. [User.to_dict] has exactly the keys user_id, username, role_id
    and email, in this order; it has no entry for the password hash and
    does not depend on it; yet the entity that a successful
    authentication returns carries the hash stored in the user's row. *)
Theorem user_to_dict_omits_password_hash :
  (forall u : User.t,
      map fst (User.to_dict u) = ["user_id"; "username"; "role_id"; "email"]) /\
  (forall u : User.t,
      dict_get String.eqb "password_hash" (User.to_dict u) = None) /\
  (forall id name hash hash' role email,
      User.to_dict (User.new id name hash role email)
      = User.to_dict (User.new id name hash' role email)) /\
  (forall db username password user,
      AuthController.authenticate_user check_password_hash db username password
      = Ok (Some user) ->
      exists users row,
        DatabaseManager.users_file db = Some users /\
        find (fun r => String.eqb (UsersCsv.Username r) username) users
        = Some row /\
        check_password_hash (UsersCsv.PasswordHash row) password = true /\
        User.password_hash user = UsersCsv.PasswordHash row).
Proof.
  split; [|split; [|split]].
  - intros u. reflexivity.
  - intros u. reflexivity.
  - intros. reflexivity.
  - intros db username password user Hauth.
    destruct (DatabaseManager.users_file db) as [users|] eqn:Hfile.
    + rewrite (authenticate_user_present db users _ _ Hfile) in Hauth.
      destruct (find _ users) as [row|] eqn:Hfind; [|discriminate].
      destruct (check_password_hash _ _) eqn:Hcheck; [|discriminate].
      exists users, row. injection Hauth as <-. repeat split; assumption.
    + rewrite (authenticate_user_missing db _ _ Hfile) in Hauth. discriminate.
Qed.

End Authentication.

Lemma authenticate_user_failure_witness :
  AuthController.authenticate_user Demo.check_password_hash Demo.db
    "nouser" "anything" = Ok None /\
  AuthController.authenticate_user Demo.check_password_hash Demo.db
    "alice" "looking-glass" = Ok None /\
  AuthController.authenticate_user Demo.check_password_hash Demo.db
    "nouser" "anything"
  = AuthController.authenticate_user Demo.check_password_hash Demo.db
      "alice" "looking-glass".
Proof.
  apply (authenticate_user_failure_indistinguishable
           Demo.check_password_hash Demo.db [Demo.alice] "nouser" "alice"
           Demo.alice "anything" "looking-glass").
  - reflexivity.
  - intros r [<-|[]]. discriminate.
  - reflexivity.
  - reflexivity.
Defined.

Lemma user_to_dict_omits_password_hash_witness :
  exists users row,
    DatabaseManager.users_file Demo.db = Some users /\
    find (fun r => String.eqb (UsersCsv.Username r) "alice") users = Some row /\
    Demo.check_password_hash (UsersCsv.PasswordHash row) "wonderland" = true /\
    User.password_hash (User.new 1 "alice" "plain$wonderland" 1
                                 "alice@example.org")
    = UsersCsv.PasswordHash row.
Proof.
  apply (proj2 (proj2 (proj2
           (user_to_dict_omits_password_hash Demo.check_password_hash)))
           Demo.db "alice" "wonderland").
  reflexivity.
Defined.

(* ================================================================== *)
(** * Missing files and missing rows *)
(* ================================================================== *)

(** The loaders turn a missing file into the empty frame, and the
    controllers' list operations then give the empty list. *)
Lemma load_missing {R : Type} (header : list string) (path : string) :
  DatabaseManager.load header path (@None (list R)) = Ok (DataFrame_new R).
Proof. reflexivity. Qed.

Lemma get_all_on_missing_files :
  DataController.get_all_countries Demo.db_missing = Ok [] /\
  DataController.get_all_minerals Demo.db_missing = Ok [] /\
  DataController.get_all_production_stats Demo.db_missing = Ok [] /\
  AuthController.get_all_users Demo.db_missing = Ok [].
Proof. repeat split. Qed.

(** C8 (what the code does). With the users and roles files missing,
    [load_users] and [load_roles] return the empty frame, but the point
    lookups [get_user_by_username] and [get_role_by_id] raise [KeyError]
    instead of returning [None], whatever the other files hold. *)
Theorem lookup_on_missing_file_raises_KeyError
    (countries : option (list CountriesCsv.row))
    (minerals : option (list MineralsCsv.row))
    (stats : option (list ProductionStatsCsv.row))
    (sites : option (list SitesCsv.row))
    (username : string) (role_id : Z) :
  let db := DatabaseManager.new None None countries minerals stats sites in
  DatabaseManager.load_users db = Ok (DataFrame_new UsersCsv.row) /\
  DatabaseManager.load_roles db = Ok (DataFrame_new RolesCsv.row) /\
  DatabaseManager.get_user_by_username db username
  = Raise (KeyError (VStr "Username")) /\
  DatabaseManager.get_role_by_id db role_id
  = Raise (KeyError (VStr "RoleID")).
Proof. repeat split. Qed.

(** The sibling route: a country id without a row is answered by the
    not-found message and a redirect to the list of countries. *)
Lemma country_detail_not_found (db : DatabaseManager.t)
    (countries : list CountriesCsv.row) (v : value)
    (session : list (string * value)) (country_id : Z) :
  DatabaseManager.countries_file db = Some countries ->
  ~ In country_id (map CountriesCsv.CountryID countries) ->
  App.country_detail db (("user_id", v) :: session) country_id
  = Ok (App.Redirect "countries" [("Country not found.", "danger")]).
Proof.
  intros Hfile Hnot.
  unfold App.country_detail, App.login_required. cbn [dict_contains negb].
  change (String.eqb "user_id" "user_id") with true. cbv iota. cbn [negb].
  unfold App.country_detail_body, DataController.get_country_by_id.
  rewrite (get_country_by_id_present db countries country_id Hfile).
  replace (find _ countries) with (@None CountriesCsv.row); [reflexivity|].
  symmetry. apply find_none_iff. intros r Hin.
  apply Z.eqb_neq. intros Heq. apply Hnot. rewrite <- Heq.
  now apply in_map.
Qed.

(** C2 (what the code does). For a logged-in session and a minerals file
    that exists, [mineral_detail] raises [NameError] for the name
    [Mineral] for every mineral id, with or without a matching row: the
    not-found message and the redirect are never produced. *)
Theorem mineral_detail_raises_NameError
    (users : option (list UsersCsv.row)) (roles : option (list RolesCsv.row))
    (countries : option (list CountriesCsv.row))
    (minerals : list MineralsCsv.row)
    (stats : option (list ProductionStatsCsv.row))
    (sites : option (list SitesCsv.row))
    (v : value) (session : list (string * value)) (mineral_id : Z) :
  App.mineral_detail
    (DatabaseManager.new users roles countries (Some minerals) stats sites)
    (("user_id", v) :: session) mineral_id
  = Raise (NameError "Mineral").
Proof.
  unfold App.mineral_detail, App.login_required. cbn [dict_contains negb].
  change (String.eqb "user_id" "user_id") with true. cbv iota. cbn [negb].
  unfold App.mineral_detail_body, DataController.get_mineral_by_id.
  rewrite (get_mineral_by_id_present
             (DatabaseManager.new users roles countries (Some minerals) stats sites)
             minerals mineral_id eq_refl).
  cbn [bind]. destruct (find _ minerals); reflexivity.
Qed.

(* ================================================================== *)
(** * Lookup by id and serialisation *)
(* ================================================================== *)

Lemma find_by_id {R : Type} (key : R -> Z) (l : list R) (id : Z) :
  In id (map key l) ->
  exists row, find (fun r => Z.eqb (key r) id) l = Some row /\
              In row l /\ key row = id.
Proof.
  intros Hin. destruct (find (fun r => Z.eqb (key r) id) l) as [row|] eqn:E.
  - exists row. destruct (find_some _ _ E) as [Hrow Hkey].
    apply Z.eqb_eq in Hkey. auto.
  - exfalso. apply in_map_iff in Hin as [r [Hkey Hr]].
    pose proof (find_none _ _ E r Hr) as Hne. cbv beta in Hne.
    apply Z.eqb_neq in Hne. contradiction.
Qed.

Lemma Forall2_map_right {A B : Type} (P : A -> B -> Prop) (g : A -> B)
    (l : list A) :
  (forall x, In x l -> P x (g x)) -> Forall2 P l (map g l).
Proof.
  induction l as [|x l IH]; intros H; simpl; constructor.
  - apply H. now left.
  - apply IH. intros y Hy. apply H. now right.
Qed.

(** C9 (amended). For an id that a row of the table carries, the lookup
    by id returns the entity of the first such row, and the entity's
    [to_dict] holds, under the key of each stored field, the value of
    that row's cell: for countries, minerals and roles, the entity types
    that have a lookup by id. Sites, production records and users have
    none; the entities of [get_all_sites], [get_all_production_stats]
    and [get_all_users] come one per row, in order, and serialise to the
    cells of their row: a site to all seven; a production record to all
    six, its integer cells as the same numbers when they are below 2^53
    in magnitude (pandas hands them over as binary64 numbers); a user to
    its user id, user name, role id and e-mail, with no entry for the
    stored password hash. *)
Theorem get_by_id_to_dict_round_trip (db : DatabaseManager.t) :
  (forall (countries : list CountriesCsv.row) (id : Z),
      DatabaseManager.countries_file db = Some countries ->
      In id (map CountriesCsv.CountryID countries) ->
      exists row c,
        find (fun r => Z.eqb (CountriesCsv.CountryID r) id) countries = Some row /\
        CountriesCsv.CountryID row = id /\
        DataController.get_country_by_id db id = Ok (Some c) /\
        let d := Country.to_dict c in
        dict_get String.eqb "country_id" d
          = Some (VInt (CountriesCsv.CountryID row)) /\
        dict_get String.eqb "country_name" d
          = Some (VStr (CountriesCsv.CountryName row)) /\
        dict_get String.eqb "gdp_billion_usd" d
          = Some (VFloat (CountriesCsv.GDP_BillionUSD row)) /\
        dict_get String.eqb "mining_revenue_billion_usd" d
          = Some (VFloat (CountriesCsv.MiningRevenue_BillionUSD row)) /\
        dict_get String.eqb "key_projects" d
          = Some (VStr (CountriesCsv.KeyProjects row))) /\
  (forall (minerals : list MineralsCsv.row) (id : Z),
      DatabaseManager.minerals_file db = Some minerals ->
      In id (map MineralsCsv.MineralID minerals) ->
      exists row m,
        find (fun r => Z.eqb (MineralsCsv.MineralID r) id) minerals = Some row /\
        MineralsCsv.MineralID row = id /\
        DataController.get_mineral_by_id db id = Ok (Some m) /\
        let d := Mineral.to_dict m in
        dict_get String.eqb "mineral_id" d
          = Some (VInt (MineralsCsv.MineralID row)) /\
        dict_get String.eqb "mineral_name" d
          = Some (VStr (MineralsCsv.MineralName row)) /\
        dict_get String.eqb "description" d
          = Some (VStr (MineralsCsv.Description row)) /\
        dict_get String.eqb "market_price_usd_per_tonne" d
          = Some (VFloat (MineralsCsv.MarketPriceUSD_per_tonne row))) /\
  (forall (roles : list RolesCsv.row) (id : Z),
      DatabaseManager.roles_file db = Some roles ->
      In id (map RolesCsv.RoleID roles) ->
      exists row r,
        find (fun r => Z.eqb (RolesCsv.RoleID r) id) roles = Some row /\
        RolesCsv.RoleID row = id /\
        AuthController.get_user_role db id = Ok (Some r) /\
        let d := Role.to_dict r in
        dict_get String.eqb "role_id" d = Some (VInt (RolesCsv.RoleID row)) /\
        dict_get String.eqb "role_name" d
          = Some (VStr (RolesCsv.RoleName row)) /\
        dict_get String.eqb "permissions" d
          = Some (VStr (RolesCsv.Permissions row))) /\
  (forall (sites : list SitesCsv.row),
      DatabaseManager.sites_file db = Some sites ->
      exists all,
        DataController.get_all_sites db = Ok all /\
        Forall2
          (fun row site =>
             let d := Site.to_dict site in
             dict_get String.eqb "site_id" d
               = Some (VInt (SitesCsv.SiteID row)) /\
             dict_get String.eqb "site_name" d
               = Some (VStr (SitesCsv.SiteName row)) /\
             dict_get String.eqb "country_id" d
               = Some (VInt (SitesCsv.CountryID row)) /\
             dict_get String.eqb "mineral_id" d
               = Some (VInt (SitesCsv.MineralID row)) /\
             dict_get String.eqb "latitude" d
               = Some (VFloat (SitesCsv.Latitude row)) /\
             dict_get String.eqb "longitude" d
               = Some (VFloat (SitesCsv.Longitude row)) /\
             dict_get String.eqb "production_tonnes" d
               = Some (VInt (SitesCsv.Production_tonnes row)))
          sites all) /\
  (forall (stats : list ProductionStatsCsv.row),
      DatabaseManager.production_stats_file db = Some stats ->
      exists all,
        DataController.get_all_production_stats db = Ok all /\
        Forall2
          (fun row stat =>
             let d := ProductionStats.to_dict stat in
             let same_number (key : string) (cell : Z) :=
               Z.abs cell < 2 ^ 53 ->
               exists v, dict_get String.eqb key d = Some v /\
                         RoundTrip.same_value v (VInt cell) in
             same_number "stat_id" (ProductionStatsCsv.StatID row) /\
             same_number "year" (ProductionStatsCsv.Year row) /\
             same_number "country_id" (ProductionStatsCsv.CountryID row) /\
             same_number "mineral_id" (ProductionStatsCsv.MineralID row) /\
             same_number "production_tonnes"
               (ProductionStatsCsv.Production_tonnes row) /\
             dict_get String.eqb "export_value_billion_usd" d
               = Some (VFloat (ProductionStatsCsv.ExportValue_BillionUSD row)))
          stats all) /\
  (forall (users : list UsersCsv.row),
      DatabaseManager.users_file db = Some users ->
      exists all,
        AuthController.get_all_users db = Ok all /\
        Forall2
          (fun row user =>
             let d := User.to_dict user in
             dict_get String.eqb "user_id" d
               = Some (VInt (UsersCsv.UserID row)) /\
             dict_get String.eqb "username" d
               = Some (VStr (UsersCsv.Username row)) /\
             dict_get String.eqb "role_id" d
               = Some (VInt (UsersCsv.RoleID row)) /\
             dict_get String.eqb "email" d
               = Some (VStr (UsersCsv.Email row)) /\
             map fst d = ["user_id"; "username"; "role_id"; "email"])
          users all).
Proof.
  split; [|split; [|split; [|split; [|split]]]].
  - intros countries id Hfile Hin.
    destruct (find_by_id CountriesCsv.CountryID countries id Hin)
      as [row [Hfind [_ Hid]]].
    exists row, (DataController.Country_of_row row).
    split; [exact Hfind|]. split; [exact Hid|]. split.
    + unfold DataController.get_country_by_id.
      rewrite (get_country_by_id_present db countries id Hfile), Hfind.
      reflexivity.
    + repeat split.
  - intros minerals id Hfile Hin.
    destruct (find_by_id MineralsCsv.MineralID minerals id Hin)
      as [row [Hfind [_ Hid]]].
    exists row, (DataController.Mineral_of_row row).
    split; [exact Hfind|]. split; [exact Hid|]. split.
    + unfold DataController.get_mineral_by_id.
      rewrite (get_mineral_by_id_present db minerals id Hfile), Hfind.
      reflexivity.
    + repeat split.
  - intros roles id Hfile Hin.
    destruct (find_by_id RolesCsv.RoleID roles id Hin)
      as [row [Hfind [_ Hid]]].
    exists row, (Role.new (RolesCsv.RoleID row) (RolesCsv.RoleName row)
                          (RolesCsv.Permissions row)).
    split; [exact Hfind|]. split; [exact Hid|]. split.
    + unfold AuthController.get_user_role.
      rewrite (get_role_by_id_present db roles id Hfile), Hfind.
      reflexivity.
    + repeat split.
  - intros sites Hfile. eexists. split.
    + unfold DataController.get_all_sites, DatabaseManager.load_sites.
      rewrite Hfile. reflexivity.
    + cbn [iterrows rows]. apply Forall2_map_right.
      intros row _. repeat split.
  - intros stats Hfile. eexists. split.
    + unfold DataController.get_all_production_stats,
        DatabaseManager.load_production_stats.
      rewrite Hfile. reflexivity.
    + cbn [iterrows rows]. apply Forall2_map_right.
      intros row _. cbv zeta.
      repeat (split; [intros _; eexists; split; reflexivity|]).
      reflexivity.
  - intros users Hfile. eexists. split.
    + unfold AuthController.get_all_users, DatabaseManager.load_users.
      rewrite Hfile. reflexivity.
    + cbn [iterrows rows]. apply Forall2_map_right.
      intros row _. repeat split.
Qed.

Lemma get_by_id_to_dict_round_trip_witness :
  (exists c, DataController.get_country_by_id Demo.db 2 = Ok (Some c) /\
             dict_get String.eqb "country_name" (Country.to_dict c)
             = Some (VStr "Chile")) /\
  (exists m, DataController.get_mineral_by_id Demo.db 1 = Ok (Some m) /\
             dict_get String.eqb "mineral_name" (Mineral.to_dict m)
             = Some (VStr "Copper")) /\
  (exists r, AuthController.get_user_role Demo.db 1 = Ok (Some r) /\
             dict_get String.eqb "permissions" (Role.to_dict r)
             = Some (VStr "manage_users, view_reports")) /\
  (exists all, DataController.get_all_sites Sample.db = Ok all /\
               List.length all = 2%nat) /\
  (exists all stat v,
      DataController.get_all_production_stats Demo.db = Ok all /\
      hd_error all = Some stat /\
      dict_get String.eqb "year" (ProductionStats.to_dict stat) = Some v /\
      RoundTrip.same_value v (VInt 2023)) /\
  (exists all, AuthController.get_all_users Demo.db = Ok all /\
               List.length all = 1%nat).
Proof.
  destruct (get_by_id_to_dict_round_trip Demo.db)
    as [Hc [Hm [Hr [_ [Hs Hu]]]]].
  destruct (get_by_id_to_dict_round_trip Sample.db)
    as [_ [_ [_ [Hsites _]]]].
  split; [|split; [|split; [|split; [|split]]]].
  - destruct (Hc [Demo.zambia; Demo.chile] 2 eq_refl
                 (or_intror (or_introl eq_refl)))
      as [row [c [Hfind [_ [Hget [_ [Hname _]]]]]]].
    simpl in Hfind. injection Hfind as <-.
    exists c. split; [exact Hget|exact Hname].
  - destruct (Hm [Demo.copper] 1 eq_refl (or_introl eq_refl))
      as [row [m [Hfind [_ [Hget [_ [Hname _]]]]]]].
    simpl in Hfind. injection Hfind as <-.
    exists m. split; [exact Hget|exact Hname].
  - destruct (Hr [Demo.administrator] 1 eq_refl (or_introl eq_refl))
      as [row [r [Hfind [_ [Hget [_ [_ Hperm]]]]]]].
    simpl in Hfind. injection Hfind as <-.
    exists r. split; [exact Hget|exact Hperm].
  - destruct (Hsites [Sample.kansanshi; Sample.orphan_site] eq_refl)
      as [all [Hall Hrows]].
    exists all. split; [exact Hall|].
    apply Forall2_length in Hrows. now rewrite <- Hrows.
  - destruct (Hs [Demo.stat 1 1 100; Demo.stat 2 2 50; Demo.stat 3 1 30]
                 eq_refl)
      as [all [Hall Hrows]].
    inversion Hrows as [|row stat rows' all' Hrow Hrest Hrowseq Halleq].
    subst. destruct Hrow as [_ [Hyear _]].
    destruct (Hyear eq_refl) as [v [Hv Hsame]].
    exists (stat :: all'), stat, v.
    split; [exact Hall|]. split; [reflexivity|].
    split; [exact Hv|exact Hsame].
  - destruct (Hu [Demo.alice] eq_refl) as [all [Hall Hrows]].
    exists all. split; [exact Hall|].
    apply Forall2_length in Hrows. now rewrite <- Hrows.
Defined.

(** C9 (as stated) fails for the User type: the entity of alice's row
    serialises without the password hash that the row stores. *)
Lemma users_round_trip_loses_password_hash :
  ~ RoundTrip.users_round_trip Demo.db.
Proof.
  intros H.
  destruct (H [Demo.alice] Demo.alice eq_refl (or_introl eq_refl))
    as [all [user [Hall [Hin [_ Hcells]]]]].
  vm_compute in Hall. injection Hall as <-.
  destruct Hin as [<-|[]].
  specialize (Hcells (VStr "plain$wonderland")).
  simpl in Hcells.
  destruct Hcells as [Hv|[Hv|[Hv|[Hv|[]]]]]; try discriminate Hv.
  right. right. left. reflexivity.
Qed.

(* ================================================================== *)
(** * Production by country as a partition *)
(* ================================================================== *)

Section Groups.
Context {A : Type} (key : A -> Z).

Lemma filter_complement_perm (p : A -> bool) (l : list A) :
  Permutation (filter p l ++ filter (fun x => negb (p x)) l) l.
Proof.
  induction l as [|x l IH]; simpl; [constructor|].
  destruct (p x); simpl.
  - now constructor.
  - apply Permutation_sym, Permutation_cons_app, Permutation_sym, IH.
Qed.

Lemma filter_other_key (i j : Z) (l : list A) :
  j <> i ->
  filter (fun x => Z.eqb (key x) j)
         (filter (fun x => negb (Z.eqb (key x) i)) l)
  = filter (fun x => Z.eqb (key x) j) l.
Proof.
  intros Hne. induction l as [|x l IH]; simpl; [reflexivity|].
  destruct (Z.eqb_spec (key x) i) as [Hi|Hi]; simpl.
  - destruct (Z.eqb_spec (key x) j) as [Hj|Hj]; [congruence|exact IH].
  - destruct (Z.eqb (key x) j); [f_equal|]; exact IH.
Qed.

Lemma concat_groups_perm (ids : list Z) (l : list A) :
  NoDup ids ->
  (forall x, In x l -> In (key x) ids) ->
  Permutation
    (List.concat (map (fun i => filter (fun x => Z.eqb (key x) i) l) ids)) l.
Proof.
  revert l. induction ids as [|i ids IH]; intros l Hnd Hall.
  - destruct l as [|x l]; [constructor|].
    exfalso. exact (Hall x (or_introl eq_refl)).
  - inversion Hnd as [|? ? Hi Hnd']; subst. cbn [map List.concat].
    set (rest := filter (fun x => negb (Z.eqb (key x) i)) l).
    assert (Hsame : map (fun j => filter (fun x => Z.eqb (key x) j) l) ids
                    = map (fun j => filter (fun x => Z.eqb (key x) j) rest) ids).
    { apply map_ext_in. intros j Hj. symmetry. apply filter_other_key.
      intros ->. contradiction. }
    rewrite Hsame.
    eapply Permutation_trans; [|apply (filter_complement_perm
                                         (fun x => Z.eqb (key x) i) l)].
    apply Permutation_app_head. apply IH; [exact Hnd'|].
    intros x Hx. apply filter_In in Hx as [Hx Hkey].
    destruct (Hall x Hx) as [Heq|Hin]; [|exact Hin].
    apply negb_true_iff, Z.eqb_neq in Hkey. congruence.
Qed.
End Groups.

Lemma for_each_total {A B : Type} (f : A -> result B) (g : A -> B)
    (l : list A) :
  (forall x, In x l -> f x = Ok (g x)) -> for_each f l = Ok (map g l).
Proof.
  induction l as [|x l IH]; intros H; simpl; [reflexivity|].
  rewrite (H x (or_introl eq_refl)). cbn [bind].
  rewrite IH by (intros y Hy; apply H; now right). reflexivity.
Qed.

Lemma get_production_by_country_present (db : DatabaseManager.t)
    (stats : list ProductionStatsCsv.row) (country_id : Z) :
  DatabaseManager.production_stats_file db = Some stats ->
  DataController.get_production_by_country db country_id
  = Ok (map DataController.ProductionStats_of_row
          (filter (fun r => Z.eqb (ProductionStatsCsv.CountryID r) country_id)
                  stats)).
Proof.
  intros H. unfold DataController.get_production_by_country,
    DatabaseManager.load_production_stats.
  rewrite H. reflexivity.
Qed.

Lemma get_production_by_mineral_present (db : DatabaseManager.t)
    (stats : list ProductionStatsCsv.row) (mineral_id : Z) :
  DatabaseManager.production_stats_file db = Some stats ->
  DataController.get_production_by_mineral db mineral_id
  = Ok (map DataController.ProductionStats_of_row
          (filter (fun r => Z.eqb (ProductionStatsCsv.MineralID r) mineral_id)
                  stats)).
Proof.
  intros H. unfold DataController.get_production_by_mineral,
    DatabaseManager.load_production_stats.
  rewrite H. reflexivity.
Qed.

Lemma production_by_known_countries_present (db : DatabaseManager.t)
    (countries : list CountriesCsv.row) (stats : list ProductionStatsCsv.row) :
  DatabaseManager.countries_file db = Some countries ->
  DatabaseManager.production_stats_file db = Some stats ->
  Spec.production_by_known_countries db
  = Ok (map (fun i =>
               map DataController.ProductionStats_of_row
                 (filter (fun r => Z.eqb (ProductionStatsCsv.CountryID r) i)
                         stats))
            (map CountriesCsv.CountryID countries)).
Proof.
  intros Hc Hs. unfold Spec.production_by_known_countries,
    DataController.get_all_countries, DatabaseManager.load_countries.
  rewrite Hc. cbn [DatabaseManager.load read_csv bind iterrows rows].
  rewrite (for_each_total _
             (fun c => map DataController.ProductionStats_of_row
                         (filter (fun r => Z.eqb (ProductionStatsCsv.CountryID r)
                                                 (Country.get_id c)) stats))).
  - rewrite !map_map. reflexivity.
  - intros c _. apply get_production_by_country_present. exact Hs.
Qed.

(** C1 (amended). When both files exist, no two country rows share an id
    and every production row carries the id of a country row, the groups
    [get_production_by_country c], taken over the countries of
    [get_all_countries], hold together exactly the records of
    [get_all_production_stats]: none is lost and none is repeated. *)
Theorem production_by_country_partitions (db : DatabaseManager.t)
    (countries : list CountriesCsv.row) (stats : list ProductionStatsCsv.row) :
  DatabaseManager.countries_file db = Some countries ->
  DatabaseManager.production_stats_file db = Some stats ->
  NoDup (map CountriesCsv.CountryID countries) ->
  (forall r, In r stats ->
             In (ProductionStatsCsv.CountryID r)
                (map CountriesCsv.CountryID countries)) ->
  Spec.partitions_exactly db.
Proof.
  intros Hc Hs Hnd Hfk.
  eexists. eexists. split; [|split].
  - apply (production_by_known_countries_present db countries stats Hc Hs).
  - unfold DataController.get_all_production_stats,
      DatabaseManager.load_production_stats.
    rewrite Hs. reflexivity.
  - cbn [iterrows rows].
    rewrite <- (map_map (fun i => filter (fun r => Z.eqb (ProductionStatsCsv.CountryID r) i) stats)
                        (map DataController.ProductionStats_of_row)).
    rewrite <- concat_map. apply Permutation_map.
    apply concat_groups_perm; assumption.
Qed.

Lemma production_by_country_partitions_witness :
  Spec.partitions_exactly Demo.db.
Proof.
  apply (production_by_country_partitions Demo.db
           [Demo.zambia; Demo.chile]
           [Demo.stat 1 1 100; Demo.stat 2 2 50; Demo.stat 3 1 30]).
  - reflexivity.
  - reflexivity.
  - repeat constructor; simpl; intuition discriminate.
  - intros r [<-|[<-|[<-|[]]]]; simpl; auto.
Defined.

(** C1 (as stated) fails on a store whose production table has a row
    for a country id that the country table does not have: that row is
    in no group. *)
Lemma production_by_country_loses_dangling_rows :
  ~ Spec.partitions_exactly Demo.db_dangling.
Proof.
  intros [groups [all [Hgroups [Hall Hperm]]]].
  vm_compute in Hgroups. vm_compute in Hall.
  injection Hgroups as <-. injection Hall as <-.
  apply Permutation_length in Hperm. discriminate.
Qed.

(* ================================================================== *)
(** * Aggregation by country for the pie chart *)
(* ================================================================== *)

Section DictZ.
Context {V : Type}.
Implicit Types (d : dict (K:=Z) (V:=V)) (k : Z) (v : V).

Lemma dict_contains_keys k d :
  dict_contains Z.eqb k d = existsb (Z.eqb k) (map fst d).
Proof.
  induction d as [|[k' v'] d IH]; simpl; [reflexivity|].
  destruct (Z.eqb k k'); [reflexivity|exact IH].
Qed.

Lemma dict_contains_In k d :
  dict_contains Z.eqb k d = true <-> In k (map fst d).
Proof.
  rewrite dict_contains_keys, existsb_exists. split.
  - intros [x [Hin Heq]]. apply Z.eqb_eq in Heq. now subst.
  - intros Hin. exists k. split; [exact Hin|apply Z.eqb_refl].
Qed.

Lemma dict_set_absent k v d :
  dict_contains Z.eqb k d = false -> dict_set Z.eqb k v d = (d ++ [(k, v)])%list.
Proof.
  induction d as [|[k' v'] d IH]; simpl; [reflexivity|].
  destruct (Z.eqb k k'); [discriminate|].
  intros H. now rewrite (IH H).
Qed.

Lemma dict_set_set k v v' d :
  dict_set Z.eqb k v' (dict_set Z.eqb k v d) = dict_set Z.eqb k v' d.
Proof.
  induction d as [|[k0 v0] d IH]; simpl.
  - now rewrite Z.eqb_refl.
  - destruct (Z.eqb k k0) eqn:E; simpl; rewrite E; [reflexivity|].
    now rewrite IH.
Qed.

Lemma dict_get_set k v d : dict_get Z.eqb k (dict_set Z.eqb k v d) = Some v.
Proof.
  induction d as [|[k0 v0] d IH]; simpl.
  - now rewrite Z.eqb_refl.
  - destruct (Z.eqb k k0) eqn:E; simpl; rewrite E; [reflexivity|exact IH].
Qed.

Lemma dict_get_present k d :
  dict_contains Z.eqb k d = true -> exists v, dict_get Z.eqb k d = Some v.
Proof.
  induction d as [|[k0 v0] d IH]; simpl; [discriminate|].
  destruct (Z.eqb k k0); [intros _; now exists v0|exact IH].
Qed.

Lemma dict_set_keys k v d :
  dict_contains Z.eqb k d = true ->
  map fst (dict_set Z.eqb k v d) = map fst d.
Proof.
  induction d as [|[k0 v0] d IH]; simpl; [discriminate|].
  destruct (Z.eqb k k0); [reflexivity|].
  intros H. simpl. now rewrite (IH H).
Qed.
End DictZ.

Lemma first_seen_ext (seen seen' ids : list Z) :
  (forall x, existsb (Z.eqb x) seen = existsb (Z.eqb x) seen') ->
  Spec.first_seen seen ids = Spec.first_seen seen' ids.
Proof.
  revert seen seen'. induction ids as [|i ids IH]; intros seen seen' H;
    simpl; [reflexivity|].
  rewrite <- (H i). destruct (existsb (Z.eqb i) seen).
  - now apply IH.
  - f_equal. apply IH. intros x. simpl. now rewrite (H x).
Qed.

Lemma first_seen_fresh (seen ids : list Z) (k : Z) :
  In k (Spec.first_seen seen ids) -> ~ In k seen /\ In k ids.
Proof.
  revert seen. induction ids as [|i ids IH]; intros seen; simpl; [tauto|].
  destruct (existsb (Z.eqb i) seen) eqn:E.
  - intros H. destruct (IH _ H). tauto.
  - intros [<-|H].
    + split; [|now left]. intros Hin.
      assert (existsb (Z.eqb i) seen = true); [|congruence].
      apply existsb_exists. exists i. split; [exact Hin|apply Z.eqb_refl].
    + destruct (IH _ H) as [Hnot Hin]. split; [|now right].
      intros Hs. apply Hnot. now right.
Qed.

Lemma first_seen_complete (seen ids : list Z) (k : Z) :
  In k ids -> ~ In k seen -> In k (Spec.first_seen seen ids).
Proof.
  revert seen. induction ids as [|i ids IH]; intros seen; simpl; [tauto|].
  intros Hin Hnot. destruct (Z.eq_dec i k) as [->|Hne].
  - replace (existsb (Z.eqb k) seen) with false; [now left|].
    symmetry. apply not_true_is_false. intros H.
    apply existsb_exists in H as [x [Hx Heq]].
    apply Z.eqb_eq in Heq. now subst.
  - destruct Hin as [Heq|Hin]; [contradiction|].
    destruct (existsb (Z.eqb i) seen).
    + now apply IH.
    + right. apply IH; [exact Hin|]. intros [Heq|Hs]; contradiction.
Qed.

Lemma first_seen_NoDup (seen ids : list Z) : NoDup (Spec.first_seen seen ids).
Proof.
  revert seen. induction ids as [|i ids IH]; intros seen; simpl;
    [constructor|].
  destruct (existsb (Z.eqb i) seen); [apply IH|].
  constructor; [|apply IH].
  intros Hin. apply first_seen_fresh in Hin as [Hnot _].
  apply Hnot. now left.
Qed.

Lemma first_seen_drop (x : Z) (seen ids : list Z) :
  Spec.first_seen (x :: seen) ids
  = Spec.first_seen seen (filter (fun y => negb (Z.eqb y x)) ids).
Proof.
  revert seen. induction ids as [|i ids IH]; intros seen; [reflexivity|].
  cbn [Spec.first_seen filter existsb].
  destruct (Z.eqb i x) eqn:E; cbn [orb negb].
  - apply IH.
  - cbn [Spec.first_seen]. destruct (existsb (Z.eqb i) seen); [apply IH|].
    f_equal. rewrite <- IH. apply first_seen_ext.
    intros y. simpl. now destruct (Z.eqb y i), (Z.eqb y x).
Qed.

Section Aggregation.
Local Open Scope list_scope.

Lemma sum_for_cons_same (s : ProductionStats.t)
    (stats : list ProductionStats.t) :
  Spec.sum_for (ProductionStats.country_id s) (s :: stats)
  = ProductionStats.production_tonnes s
    + Spec.sum_for (ProductionStats.country_id s) stats.
Proof. unfold Spec.sum_for. simpl. rewrite Z.eqb_refl. reflexivity. Qed.

Lemma sum_for_cons_other (k : Z) (s : ProductionStats.t)
    (stats : list ProductionStats.t) :
  k <> ProductionStats.country_id s ->
  Spec.sum_for k (s :: stats) = Spec.sum_for k stats.
Proof.
  intros Hne. unfold Spec.sum_for. simpl.
  destruct (Z.eqb_spec (ProductionStats.country_id s) k); [congruence|].
  reflexivity.
Qed.

Lemma bump_others (s : ProductionStats.t) (stats : list ProductionStats.t)
    (d : list (Z * Z)) :
  ~ In (ProductionStats.country_id s) (map fst d) ->
  map (Spec.bump stats) d = map (Spec.bump (s :: stats)) d.
Proof.
  intros Hnot. apply map_ext_in. intros [k v] Hin. unfold Spec.bump. simpl.
  rewrite sum_for_cons_other; [reflexivity|].
  intros ->. apply Hnot. apply in_map_iff. now exists (ProductionStats.country_id s, v).
Qed.

Lemma bump_set (s : ProductionStats.t) (stats : list ProductionStats.t)
    (d : list (Z * Z)) (v : Z) :
  NoDup (map fst d) ->
  dict_get Z.eqb (ProductionStats.country_id s) d = Some v ->
  map (Spec.bump stats)
      (dict_set Z.eqb (ProductionStats.country_id s)
                (v + ProductionStats.production_tonnes s) d)
  = map (Spec.bump (s :: stats)) d.
Proof.
  induction d as [|[k0 v0] d IH]; simpl; intros Hnd Hget; [discriminate|].
  inversion Hnd as [|? ? Hk0 Hnd']; subst.
  destruct (Z.eqb_spec (ProductionStats.country_id s) k0) as [Heq|Hne].
  - injection Hget as <-. subst k0. simpl. f_equal.
    + unfold Spec.bump. simpl. rewrite sum_for_cons_same. f_equal. lia.
    + apply bump_others. exact Hk0.
  - simpl. f_equal.
    + unfold Spec.bump. simpl. rewrite sum_for_cons_other; [reflexivity|congruence].
    + apply IH; assumption.
Qed.

Lemma aggregate_loop_spec (stats : list ProductionStats.t) :
  forall d : list (Z * Z),
    NoDup (map fst d) ->
    VisualizationController.aggregate_loop stats d
    = Ok (map (Spec.bump stats) d
          ++ map (Spec.fresh stats)
               (Spec.first_seen (map fst d)
                  (map ProductionStats.country_id stats))).
Proof.
  induction stats as [|s stats IH]; intros d Hnd.
  - simpl. rewrite app_nil_r. f_equal.
    rewrite (map_ext (Spec.bump []) (fun kv => kv)); [now rewrite map_id|].
    intros [k v]. unfold Spec.bump, Spec.sum_for. simpl. f_equal. lia.
  - cbn [VisualizationController.aggregate_loop map Spec.first_seen].
    unfold ProductionStats.get_country_id, ProductionStats.get_production.
    rewrite <- dict_contains_keys.
    destruct (dict_contains Z.eqb (ProductionStats.country_id s) d) eqn:Hc;
      cbn [negb].
    + destruct (dict_get_present _ _ Hc) as [v Hv].
      unfold VisualizationController.getitem. rewrite Hv. cbn [bind].
      rewrite IH by (rewrite dict_set_keys; assumption).
      rewrite dict_set_keys by assumption.
      rewrite (bump_set s stats d v Hnd Hv). do 2 f_equal.
      apply map_ext_in. intros k Hk. unfold Spec.fresh.
      rewrite sum_for_cons_other; [reflexivity|].
      intros ->. apply first_seen_fresh in Hk as [Hnot _].
      apply Hnot. now apply dict_contains_In.
    + assert (Hnot : ~ In (ProductionStats.country_id s) (map fst d)).
      { intros Hin. apply dict_contains_In in Hin. congruence. }
      unfold VisualizationController.getitem.
      rewrite dict_get_set. cbn [bind]. rewrite dict_set_set.
      rewrite (dict_set_absent _ _ _ Hc).
      rewrite IH.
      2:{ rewrite map_app. simpl. apply NoDup_app_remove_l with (l := nil).
          simpl. apply Permutation_NoDup with (l := ProductionStats.country_id s :: map fst d).
          - apply Permutation_cons_append.
          - now constructor. }
      rewrite !map_app. cbn [map fst]. rewrite <- app_assoc. cbn [app].
      f_equal. f_equal; [apply bump_others; exact Hnot|]. f_equal.
      * unfold Spec.bump, Spec.fresh. simpl. rewrite sum_for_cons_same. f_equal; lia.
      * rewrite (first_seen_ext (map fst d ++ [ProductionStats.country_id s])
                   (ProductionStats.country_id s :: map fst d)).
        2:{ intros x. rewrite existsb_app. simpl.
            now destruct (Z.eqb x (ProductionStats.country_id s)),
                         (existsb (Z.eqb x) (map fst d)). }
        apply map_ext_in. intros k Hk. unfold Spec.fresh.
        rewrite sum_for_cons_other; [reflexivity|].
        intros ->. apply first_seen_fresh in Hk as [Hk _].
        apply Hk. now left.
Qed.

Lemma aggregate_production_by_country_spec (stats : list ProductionStats.t) :
  VisualizationController.aggregate_production_by_country stats
  = Ok (Spec.group_by_country stats).
Proof.
  unfold VisualizationController.aggregate_production_by_country.
  rewrite aggregate_loop_spec by constructor. reflexivity.
Qed.

Lemma names_loop_spec (db : DatabaseManager.t)
    (countries : list CountriesCsv.row) (items : list (Z * Z)) :
  DatabaseManager.countries_file db = Some countries ->
  forall (names : list string) (productions : list Z),
    VisualizationController.names_loop db items names productions
    = Ok (names ++ map fst (Spec.known_groups countries items),
          productions ++ map snd (Spec.known_groups countries items)).
Proof.
  intros Hfile. induction items as [|[k v] items IH]; intros names productions.
  - simpl. now rewrite !app_nil_r.
  - cbn [VisualizationController.names_loop].
    unfold DataController.get_country_by_id.
    rewrite (get_country_by_id_present db countries k Hfile). cbn [bind].
    unfold Spec.known_groups. cbn [flat_map fst snd].
    destruct (find _ countries) as [r|]; cbn [bind].
    + rewrite IH. unfold Spec.known_groups.
      rewrite !map_app, <- !app_assoc. reflexivity.
    + rewrite IH. reflexivity.
Qed.

End Aggregation.

(** C4. The aggregation that feeds the pie chart groups the records by
    country id, sums [production_tonnes] within each group and keeps the
    groups in the order in which their country id is first seen: one group
    per country id that occurs, none twice. The records
    (country 1, 100), (country 2, 50), (country 1, 30) give the sums
    130 for country 1 and 50 for country 2, in this order. The chart
    receives these groups, in this order, for the countries that have a
    row in the country table. *)
Theorem aggregation_by_country_first_seen_sums :
  (forall stats : list ProductionStats.t,
      VisualizationController.aggregate_production_by_country stats
      = Ok (Spec.group_by_country stats)) /\
  (forall stats : list ProductionStats.t,
      NoDup (map fst (Spec.group_by_country stats)) /\
      forall k, In k (map fst (Spec.group_by_country stats))
                <-> In k (map ProductionStats.country_id stats)) /\
  (forall (i : Z) (ids : list Z),
      Spec.first_seen [] (i :: ids)
      = i :: Spec.first_seen [] (filter (fun j => negb (Z.eqb j i)) ids)) /\
  (forall id1 id2 id3 y1 y2 y3 m1 m2 m3 e1 e2 e3,
      VisualizationController.aggregate_production_by_country
        [ ProductionStats.new id1 y1 1 m1 100 e1;
          ProductionStats.new id2 y2 2 m2 50 e2;
          ProductionStats.new id3 y3 1 m3 30 e3 ]
      = Ok [(1, 130); (2, 50)]) /\
  (forall (db : DatabaseManager.t) (countries : list CountriesCsv.row)
          (stats : list ProductionStatsCsv.row) (mineral_id : Z),
      DatabaseManager.countries_file db = Some countries ->
      DatabaseManager.production_stats_file db = Some stats ->
      let groups :=
        Spec.known_groups countries
          (Spec.group_by_country
             (map DataController.ProductionStats_of_row
                (filter (fun r => Z.eqb (ProductionStatsCsv.MineralID r)
                                        mineral_id) stats))) in
      VisualizationController.create_production_by_country_pie_chart
        db mineral_id
      = Ok (map fst groups, map snd groups)).
Proof.
  split; [|split; [|split; [|split]]].
  - exact aggregate_production_by_country_spec.
  - intros stats. unfold Spec.group_by_country.
    rewrite map_map. cbn [fst]. rewrite map_id. split.
    + apply first_seen_NoDup.
    + intros k. split.
      * intros H. now apply first_seen_fresh in H.
      * intros H. apply first_seen_complete; [exact H|tauto].
  - intros i ids. cbn [Spec.first_seen existsb]. f_equal.
    apply first_seen_drop.
  - intros. reflexivity.
  - intros db countries stats mineral_id Hc Hs groups.
    unfold VisualizationController.create_production_by_country_pie_chart.
    rewrite (get_production_by_mineral_present db stats mineral_id Hs).
    cbn [bind]. rewrite aggregate_production_by_country_spec. cbn [bind].
    unfold dict_items.
    rewrite (names_loop_spec db countries _ Hc). reflexivity.
Qed.

Lemma aggregation_by_country_witness :
  VisualizationController.create_production_by_country_pie_chart Demo.db 1
  = Ok (["Zambia"; "Chile"], [130; 50]).
Proof.
  apply (proj2 (proj2 (proj2 (proj2 aggregation_by_country_first_seen_sums)))
           Demo.db [Demo.zambia; Demo.chile]
           [Demo.stat 1 1 100; Demo.stat 2 2 50; Demo.stat 3 1 30] 1).
  - reflexivity.
  - reflexivity.
Defined.

(* ================================================================== *)
(** * Filters of the data controller *)
(* ================================================================== *)

Lemma filter_map_swap {A B : Type} (f : A -> B) (p : B -> bool) (l : list A) :
  filter p (map f l) = map f (filter (fun x => p (f x)) l).
Proof.
  induction l as [|x l IH]; simpl; [reflexivity|].
  destruct (p (f x)); simpl; now rewrite IH.
Qed.

Lemma get_all_production_stats_present (db : DatabaseManager.t)
    (stats : list ProductionStatsCsv.row) :
  DatabaseManager.production_stats_file db = Some stats ->
  DataController.get_all_production_stats db
  = Ok (map DataController.ProductionStats_of_row stats).
Proof.
  intros H. unfold DataController.get_all_production_stats,
    DatabaseManager.load_production_stats.
  rewrite H. reflexivity.
Qed.

Lemma get_all_sites_present (db : DatabaseManager.t)
    (sites : list SitesCsv.row) :
  DatabaseManager.sites_file db = Some sites ->
  DataController.get_all_sites db = Ok (map DataController.Site_of_row sites).
Proof.
  intros H. unfold DataController.get_all_sites, DatabaseManager.load_sites.
  rewrite H. reflexivity.
Qed.

Lemma get_sites_by_country_present (db : DatabaseManager.t)
    (sites : list SitesCsv.row) (country_id : Z) :
  DatabaseManager.sites_file db = Some sites ->
  DataController.get_sites_by_country db country_id
  = Ok (map DataController.Site_of_row
          (filter (fun r => Z.eqb (SitesCsv.CountryID r) country_id) sites)).
Proof.
  intros H. unfold DataController.get_sites_by_country,
    DatabaseManager.load_sites.
  rewrite H. reflexivity.
Qed.

Lemma get_sites_by_mineral_present (db : DatabaseManager.t)
    (sites : list SitesCsv.row) (mineral_id : Z) :
  DatabaseManager.sites_file db = Some sites ->
  DataController.get_sites_by_mineral db mineral_id
  = Ok (map DataController.Site_of_row
          (filter (fun r => Z.eqb (SitesCsv.MineralID r) mineral_id) sites)).
Proof.
  intros H. unfold DataController.get_sites_by_mineral,
    DatabaseManager.load_sites.
  rewrite H. reflexivity.
Qed.

(** X1. When the production file exists, [get_production_by_country] and
    [get_production_by_mineral] return exactly the records of
    [get_all_production_stats] that carry the given id, in the same
    order (the empty list when there is none). *)
Theorem production_filters_select_from_all (db : DatabaseManager.t)
    (stats : list ProductionStatsCsv.row) (id : Z) :
  DatabaseManager.production_stats_file db = Some stats ->
  exists all,
    DataController.get_all_production_stats db = Ok all /\
    DataController.get_production_by_country db id
    = Ok (filter (fun s => Z.eqb (ProductionStats.get_country_id s) id) all) /\
    DataController.get_production_by_mineral db id
    = Ok (filter (fun s => Z.eqb (ProductionStats.get_mineral_id s) id) all).
Proof.
  intros H. exists (map DataController.ProductionStats_of_row stats).
  split; [exact (get_all_production_stats_present db stats H)|]. split.
  - rewrite (get_production_by_country_present db stats id H).
    now rewrite filter_map_swap.
  - rewrite (get_production_by_mineral_present db stats id H).
    now rewrite filter_map_swap.
Qed.

Lemma production_filters_select_from_all_witness :
  exists all,
    DataController.get_all_production_stats Demo.db = Ok all /\
    DataController.get_production_by_country Demo.db 1
    = Ok (filter (fun s => Z.eqb (ProductionStats.get_country_id s) 1) all) /\
    DataController.get_production_by_mineral Demo.db 1
    = Ok (filter (fun s => Z.eqb (ProductionStats.get_mineral_id s) 1) all).
Proof.
  apply (production_filters_select_from_all Demo.db
           [Demo.stat 1 1 100; Demo.stat 2 2 50; Demo.stat 3 1 30] 1).
  reflexivity.
Defined.

(** X2. When the sites file exists, [get_sites_by_country] and
    [get_sites_by_mineral] return exactly the sites of [get_all_sites]
    that carry the given id, in the same order. *)
Theorem site_filters_select_from_all (db : DatabaseManager.t)
    (sites : list SitesCsv.row) (id : Z) :
  DatabaseManager.sites_file db = Some sites ->
  exists all,
    DataController.get_all_sites db = Ok all /\
    DataController.get_sites_by_country db id
    = Ok (filter (fun s => Z.eqb (Site.get_country_id s) id) all) /\
    DataController.get_sites_by_mineral db id
    = Ok (filter (fun s => Z.eqb (Site.get_mineral_id s) id) all).
Proof.
  intros H. exists (map DataController.Site_of_row sites).
  split; [exact (get_all_sites_present db sites H)|]. split.
  - rewrite (get_sites_by_country_present db sites id H).
    now rewrite filter_map_swap.
  - rewrite (get_sites_by_mineral_present db sites id H).
    now rewrite filter_map_swap.
Qed.

Lemma site_filters_select_from_all_witness :
  exists all,
    DataController.get_all_sites Sample.db = Ok all /\
    DataController.get_sites_by_country Sample.db 1
    = Ok (filter (fun s => Z.eqb (Site.get_country_id s) 1) all) /\
    DataController.get_sites_by_mineral Sample.db 1
    = Ok (filter (fun s => Z.eqb (Site.get_mineral_id s) 1) all).
Proof.
  apply (site_filters_select_from_all Sample.db
           [Sample.kansanshi; Sample.orphan_site] 1).
  reflexivity.
Defined.

(** X3. With none of the data files present, the four list operations of
    the data controller return the empty list, while every filter and
    every lookup by id or name raises [KeyError] for the column it
    selects on, whatever its argument. *)
Theorem data_controller_on_missing_files
    (users : option (list UsersCsv.row)) (roles : option (list RolesCsv.row))
    (id : Z) (name : string) :
  let db := DatabaseManager.new users roles None None None None in
  (DataController.get_all_countries db = Ok [] /\
   DataController.get_all_minerals db = Ok [] /\
   DataController.get_all_production_stats db = Ok [] /\
   DataController.get_all_sites db = Ok []) /\
  (DataController.get_production_by_country db id
   = Raise (KeyError (VStr "CountryID")) /\
   DataController.get_production_by_mineral db id
   = Raise (KeyError (VStr "MineralID")) /\
   DataController.get_sites_by_country db id
   = Raise (KeyError (VStr "CountryID")) /\
   DataController.get_sites_by_mineral db id
   = Raise (KeyError (VStr "MineralID"))) /\
  (DataController.get_country_by_id db id
   = Raise (KeyError (VStr "CountryID")) /\
   DataController.get_mineral_by_id db id
   = Raise (KeyError (VStr "MineralID")) /\
   DataController.get_country_by_name db name
   = Raise (KeyError (VStr "CountryName"))).
Proof. repeat split. Qed.

Lemma get_country_by_name_present (db : DatabaseManager.t)
    (countries : list CountriesCsv.row) (name : string) :
  DatabaseManager.countries_file db = Some countries ->
  DataController.get_country_by_name db name
  = Ok (option_map DataController.Country_of_row
          (find (fun r => String.eqb (CountriesCsv.CountryName r) name)
                countries)).
Proof.
  intros H. unfold DataController.get_country_by_name,
    DatabaseManager.load_countries.
  rewrite H. cbn [DatabaseManager.load read_csv bind].
  unfold select_eq. cbn [columns rows CountriesCsv.header str_in existsb].
  change (String.eqb "CountryName" "CountryID") with false.
  change (String.eqb "CountryName" "CountryName") with true.
  cbn [orb bind]. rewrite <- hd_error_filter.
  destruct (filter _ countries) as [|r rs]; reflexivity.
Qed.

(** X4. When the countries file exists, [get_country_by_name] does not
    raise; a country it returns bears exactly the requested name and is
    built from the first row of that name, and it returns [None] exactly
    when no row has that name (the match is case-sensitive). *)
Theorem get_country_by_name_exact (db : DatabaseManager.t)
    (countries : list CountriesCsv.row) (name : string) :
  DatabaseManager.countries_file db = Some countries ->
  (exists r, DataController.get_country_by_name db name = Ok r) /\
  (forall c, DataController.get_country_by_name db name = Ok (Some c) ->
             Country.get_name c = name /\
             exists row,
               find (fun r => String.eqb (CountriesCsv.CountryName r) name)
                    countries = Some row /\
               c = DataController.Country_of_row row) /\
  (DataController.get_country_by_name db name = Ok None <->
   ~ In name (map CountriesCsv.CountryName countries)).
Proof.
  intros H. rewrite (get_country_by_name_present db countries name H).
  split; [eexists; reflexivity|]. split.
  - intros c Hc. injection Hc as Hc.
    destruct (find _ countries) as [row|] eqn:E; [|discriminate].
    injection Hc as <-. split.
    + apply find_some in E as [_ E]. now apply String.eqb_eq in E.
    + exists row. split; reflexivity.
  - split.
    + intros Hn. injection Hn as Hn.
      destruct (find _ countries) as [row|] eqn:E; [discriminate|].
      intros Hin. apply in_map_iff in Hin as [r [Hr Hin]].
      pose proof (find_none _ _ E r Hin) as Hne. cbv beta in Hne.
      rewrite Hr, String.eqb_refl in Hne. discriminate.
    + intros Hnot. replace (find _ countries) with (@None CountriesCsv.row);
        [reflexivity|].
      symmetry. apply find_none_iff. intros r Hin.
      apply String.eqb_neq. intros Heq. apply Hnot. rewrite <- Heq.
      now apply in_map.
Qed.

Lemma get_country_by_name_exact_witness :
  DataController.get_country_by_name Demo.db "chile" = Ok None.
Proof.
  apply (proj2 (proj2 (get_country_by_name_exact Demo.db
                         [Demo.zambia; Demo.chile] "chile" eq_refl))).
  simpl. intros [H|[H|[]]]; discriminate.
Defined.

(* ================================================================== *)
(** * Roles, permissions and sessions *)
(* ================================================================== *)

Lemma lstrip_head (s : string) :
  match lstrip s with
  | EmptyString => True
  | String c _ => isspace c = false
  end.
Proof.
  induction s as [|c s IH]; simpl; [exact I|].
  destruct (isspace c) eqn:E; [exact IH|]. exact E.
Qed.

Lemma rstrip_cons (c c' : ascii) (s r : string) :
  rstrip s = String c' r -> rstrip (String c s) = String c (String c' r).
Proof. intros H. cbn [rstrip]. now rewrite H. Qed.

Lemma rstrip_idempotent (s : string) : rstrip (rstrip s) = rstrip s.
Proof.
  induction s as [|c s IH]; [reflexivity|].
  destruct (rstrip s) as [|c' r] eqn:E.
  - cbn [rstrip]. rewrite E.
    destruct (isspace c) eqn:Ec; [reflexivity|]. simpl. now rewrite Ec.
  - rewrite (rstrip_cons c c' s r E). now apply rstrip_cons.
Qed.

Lemma rstrip_keeps_head (c : ascii) (s : string) :
  isspace c = false -> exists r, rstrip (String c s) = String c r.
Proof.
  intros Hc. cbn [rstrip]. destruct (rstrip s) as [|c' r].
  - rewrite Hc. now exists EmptyString.
  - now exists (String c' r).
Qed.

Lemma strip_idempotent (s : string) : strip (strip s) = strip s.
Proof.
  unfold strip. pose proof (lstrip_head s) as Hhead.
  destruct (lstrip s) as [|c t] eqn:E; [reflexivity|].
  destruct (rstrip_keeps_head c t Hhead) as [r Hr].
  rewrite Hr. cbn [lstrip]. rewrite Hhead, <- Hr. apply rstrip_idempotent.
Qed.

Lemma lacks_lstrip (c : ascii) (s : string) :
  Spec.lacks c s = true -> Spec.lacks c (lstrip s) = true.
Proof.
  induction s as [|c' s IH]; simpl; intros H; [reflexivity|].
  apply andb_true_iff in H as [Hc Hs].
  destruct (isspace c'); [now apply IH|]. simpl. now rewrite Hc, Hs.
Qed.

Lemma lacks_rstrip (c : ascii) (s : string) :
  Spec.lacks c s = true -> Spec.lacks c (rstrip s) = true.
Proof.
  induction s as [|c' s IH]; intros H; [reflexivity|].
  cbn [Spec.lacks] in H. apply andb_true_iff in H as [Hc Hs].
  specialize (IH Hs). cbn [rstrip]. destruct (rstrip s) as [|c'' r].
  - destruct (isspace c'); [reflexivity|]. simpl. now rewrite Hc.
  - cbn [Spec.lacks] in *. now rewrite Hc, IH.
Qed.

Lemma split_pieces_lack_sep (sep : ascii) (s : string) :
  Forall (fun piece => Spec.lacks sep piece = true) (split sep s).
Proof.
  induction s as [|c s IH]; simpl; [now repeat constructor|].
  destruct (Ascii.eqb c sep) eqn:E.
  - constructor; [reflexivity|exact IH].
  - destruct (split sep s) as [|w ws]; [repeat constructor; simpl; now rewrite E|].
    inversion IH as [|? ? Hw Hws]; subst.
    constructor; [simpl; now rewrite E, Hw|exact Hws].
Qed.

(** X5. Every entry of [Role.get_permissions_list] is free of commas and
    of white space at both ends; hence [has_permission] never grants a
    permission string that contains a comma or is padded with white
    space, and a role whose permission string is empty grants nothing. *)
Theorem permissions_list_entries_are_stripped :
  (forall (r : Role.t) (p : string),
      In p (Role.get_permissions_list r) ->
      strip p = p /\ Spec.lacks "," p = true) /\
  (forall (r : Role.t) (p : string),
      Role.has_permission r p = true ->
      strip p = p /\ Spec.lacks "," p = true) /\
  (forall id name (p : string),
      Role.has_permission (Role.new id name "") p = false).
Proof.
  assert (Hlist : forall (r : Role.t) (p : string),
             In p (Role.get_permissions_list r) ->
             strip p = p /\ Spec.lacks "," p = true).
  { intros r p. unfold Role.get_permissions_list.
    destruct (truthy (Role.permissions r)); [|intros []].
    intros Hin. apply in_map_iff in Hin as [piece [<- Hpiece]]. split.
    - apply strip_idempotent.
    - pose proof (split_pieces_lack_sep "," (Role.permissions r)) as Hall.
      rewrite Forall_forall in Hall. unfold strip.
      apply lacks_rstrip, lacks_lstrip, Hall, Hpiece. }
  split; [exact Hlist|]. split.
  - intros r p Hp. apply (Hlist r). unfold Role.has_permission in Hp.
    now apply str_in_In.
  - intros. reflexivity.
Qed.

Lemma permissions_list_entries_are_stripped_witness :
  strip "view_reports" = "view_reports" /\ Spec.lacks "," "view_reports" = true.
Proof.
  apply (proj1 (proj2 permissions_list_entries_are_stripped)
           (Role.new 1 "Administrator" "manage_users, view_reports")).
  reflexivity.
Defined.

Lemma get_user_role_present (db : DatabaseManager.t)
    (roles : list RolesCsv.row) (role_id : Z) :
  DatabaseManager.roles_file db = Some roles ->
  AuthController.get_user_role db role_id
  = Ok (option_map
          (fun row => Role.new (RolesCsv.RoleID row) (RolesCsv.RoleName row)
                               (RolesCsv.Permissions row))
          (find (fun r => Z.eqb (RolesCsv.RoleID r) role_id) roles)).
Proof.
  intros H. unfold AuthController.get_user_role.
  rewrite (get_role_by_id_present db roles role_id H). cbn [bind].
  destruct (find _ roles); reflexivity.
Qed.



Lemma dict_contains_string_In (key : string) (d : list (string * value)) :
  dict_contains String.eqb key d = true <-> In key (map fst d).
Proof.
  induction d as [|[k v] d IH]; simpl.
  - split; [discriminate|tauto].
  - destruct (String.eqb_spec key k) as [->|Hne].
    + split; [now left|reflexivity].
    + rewrite IH. split; [now right|]. intros [Heq|Hd]; [congruence|exact Hd].
Qed.

Lemma required_keys_loop_spec (keys : list string)
    (session_data : list (string * value)) :
  AuthController.required_keys_loop keys session_data = true <->
  forall key, In key keys -> In key (map fst session_data).
Proof.
  induction keys as [|key keys IH]; simpl.
  - split; [intros _ key []|reflexivity].
  - destruct (dict_contains String.eqb key session_data) eqn:E; cbn [negb].
    + apply dict_contains_string_In in E. rewrite IH. split.
      * intros Hall k [<-|Hk]; [exact E|now apply Hall].
      * intros Hall k Hk. apply Hall. now right.
    + split; [discriminate|]. intros Hall.
      assert (In key (map fst session_data)) as Hk by (apply Hall; now left).
      apply dict_contains_string_In in Hk. congruence.
Qed.

Lemma validate_session_spec (session_data : list (string * value)) :
  AuthController.validate_session (Some session_data) = true <->
  (In "user_id" (map fst session_data) /\
   In "username" (map fst session_data) /\
   In "role_id" (map fst session_data)).
Proof.
  assert (Hloop : AuthController.validate_session (Some session_data)
                  = AuthController.required_keys_loop
                      AuthController.required_keys session_data).
  { destruct session_data; reflexivity. }
  rewrite Hloop, required_keys_loop_spec. unfold AuthController.required_keys.
  split.
  - intros H. repeat split; apply H; simpl; tauto.
  - intros [H1 [H2 H3]] key [<-|[<-|[<-|[]]]]; assumption.
Qed.

(** X7. [validate_session] accepts a session exactly when it holds the
    three keys user_id, username and role_id, whatever their values and
    whatever else the session holds; [None] and the empty session are
    rejected. *)
Theorem validate_session_iff_required_keys :
  (forall session_data : list (string * value),
      AuthController.validate_session (Some session_data) = true <->
      (In "user_id" (map fst session_data) /\
       In "username" (map fst session_data) /\
       In "role_id" (map fst session_data))) /\
  AuthController.validate_session None = false /\
  AuthController.validate_session (Some []) = false.
Proof.
  split; [exact validate_session_spec|split; reflexivity].
Qed.

Lemma validate_session_iff_required_keys_witness :
  AuthController.validate_session (Some Demo.session) = true.
Proof.
  apply (proj1 validate_session_iff_required_keys Demo.session).
  simpl. tauto.
Defined.

Section AuthenticationResults.
Variable check_password_hash : string -> string -> bool.

(** X8. A user returned by [authenticate_user] bears the user name that
    was asked for, is one of the users of [get_all_users], and its stored
    hash accepts the given password; a user name that no row carries is
    never authenticated, whatever the password. *)
Theorem authenticate_user_sound (db : DatabaseManager.t)
    (username password : string) :
  (forall user,
      AuthController.authenticate_user check_password_hash db username password
      = Ok (Some user) ->
      User.get_username user = username /\
      check_password_hash (User.password_hash user) password = true /\
      exists users, AuthController.get_all_users db = Ok users /\
                    In user users) /\
  (forall users,
      DatabaseManager.users_file db = Some users ->
      ~ In username (map UsersCsv.Username users) ->
      AuthController.authenticate_user check_password_hash db username password
      = Ok None).
Proof.
  split.
  - intros user Hauth.
    destruct (DatabaseManager.users_file db) as [users|] eqn:Hfile.
    + rewrite (authenticate_user_present check_password_hash db users _ _ Hfile)
        in Hauth.
      destruct (find _ users) as [row|] eqn:Hfind; [|discriminate].
      destruct (check_password_hash _ _) eqn:Hcheck; [|discriminate].
      injection Hauth as <-. apply find_some in Hfind as [Hin Hname].
      apply String.eqb_eq in Hname. split; [exact Hname|].
      split; [exact Hcheck|].
      eexists. split.
      * unfold AuthController.get_all_users, DatabaseManager.load_users.
        rewrite Hfile. reflexivity.
      * cbn [iterrows rows].
        apply (in_map (fun r => User.new (UsersCsv.UserID r) (UsersCsv.Username r)
                                  (UsersCsv.PasswordHash r) (UsersCsv.RoleID r)
                                  (UsersCsv.Email r)) users row Hin).
    + rewrite (authenticate_user_missing check_password_hash db _ _ Hfile)
        in Hauth. discriminate.
  - intros users Hfile Hnot.
    rewrite (authenticate_user_present check_password_hash db users _ _ Hfile).
    replace (find _ users) with (@None UsersCsv.row); [reflexivity|].
    symmetry. apply find_none_iff. intros r Hin.
    apply String.eqb_neq. intros Heq. apply Hnot. rewrite <- Heq.
    now apply in_map.
Qed.

End AuthenticationResults.

Lemma authenticate_user_sound_witness :
  User.get_username (User.new 1 "alice" "plain$wonderland" 1 "alice@example.org")
  = "alice" /\
  Demo.check_password_hash
    (User.password_hash
       (User.new 1 "alice" "plain$wonderland" 1 "alice@example.org"))
    "wonderland" = true /\
  exists users, AuthController.get_all_users Demo.db = Ok users /\
                In (User.new 1 "alice" "plain$wonderland" 1 "alice@example.org")
                   users.
Proof.
  apply (proj1 (authenticate_user_sound Demo.check_password_hash Demo.db
                  "alice" "wonderland")).
  reflexivity.
Defined.

(* ================================================================== *)
(** * Charts and maps *)
(* ================================================================== *)

Lemma total_app (d d' : list (Z * Z)) :
  Sample.total (d ++ d') = Sample.total d + Sample.total d'.
Proof.
  unfold Sample.total. induction d as [|[k v] d IH]; simpl; [reflexivity|].
  simpl in IH. rewrite IH. lia.
Qed.

Lemma total_dict_set (k v v' : Z) (d : list (Z * Z)) :
  dict_get Z.eqb k d = Some v ->
  Sample.total (dict_set Z.eqb k v' d) = Sample.total d - v + v'.
Proof.
  unfold Sample.total.
  induction d as [|[k0 v0] d IH]; simpl; [discriminate|].
  destruct (Z.eqb k k0); simpl.
  - intros H. injection H as <-. lia.
  - intros H. rewrite (IH H). lia.
Qed.

Lemma aggregate_loop_total (stats : list ProductionStats.t) :
  forall d : list (Z * Z),
  exists d',
    VisualizationController.aggregate_loop stats d = Ok d' /\
    Sample.total d' = Sample.total d + Sample.total_production stats.
Proof.
  induction stats as [|s stats IH]; intros d.
  - exists d. split; [reflexivity|]. unfold Sample.total_production. simpl. lia.
  - cbn [VisualizationController.aggregate_loop].
    set (k := ProductionStats.get_country_id s).
    set (p := ProductionStats.get_production s).
    assert (Htp : Sample.total_production (s :: stats)
                  = p + Sample.total_production stats) by reflexivity.
    destruct (dict_contains Z.eqb k d) eqn:Hc; cbn [negb].
    + destruct (dict_get_present _ _ Hc) as [v Hv].
      unfold VisualizationController.getitem. rewrite Hv. cbn [bind].
      destruct (IH (dict_set Z.eqb k (v + p) d)) as [d' [Hrun Htot]].
      exists d'. split; [exact Hrun|].
      rewrite Htot, (total_dict_set k v (v + p) d Hv), Htp. lia.
    + unfold VisualizationController.getitem.
      rewrite dict_get_set. cbn [bind]. rewrite dict_set_set.
      rewrite (dict_set_absent _ _ _ Hc).
      destruct (IH (d ++ [(k, 0 + p)])%list) as [d' [Hrun Htot]].
      exists d'. split; [exact Hrun|].
      rewrite Htot, total_app, Htp. unfold Sample.total. simpl. lia.
Qed.

(** X9. The aggregation by country never raises and loses nothing: the
    sums of its groups add up to the total production of the records it
    was given, and no country id has two groups. *)
Theorem aggregation_conserves_total (stats : list ProductionStats.t) :
  exists country_production,
    VisualizationController.aggregate_production_by_country stats
    = Ok country_production /\
    Sample.total country_production = Sample.total_production stats /\
    NoDup (map fst country_production).
Proof.
  destruct (aggregate_loop_total stats []) as [d [Hrun Htot]].
  exists d. split; [exact Hrun|]. split; [exact Htot|].
  unfold VisualizationController.aggregate_production_by_country in *.
  change (VisualizationController.aggregate_loop stats [])
    with (VisualizationController.aggregate_production_by_country stats) in Hrun.
  rewrite aggregate_production_by_country_spec in Hrun.
  injection Hrun as <-. unfold Spec.group_by_country.
  rewrite map_map. cbn [fst]. rewrite map_id. apply first_seen_NoDup.
Qed.

Lemma names_loop_lengths (db : DatabaseManager.t) (items : list (Z * Z)) :
  forall (names : list string) (productions : list Z) labels values,
    VisualizationController.names_loop db items names productions
    = Ok (labels, values) ->
    List.length names = List.length productions ->
    List.length labels = List.length values.
Proof.
  induction items as [|[k v] items IH]; intros names productions labels values.
  - simpl. intros H. injection H as <- <-. tauto.
  - cbn [VisualizationController.names_loop].
    destruct (DataController.get_country_by_id db k) as [[c|]|e];
      cbn [bind]; [| |discriminate].
    + intros H Hlen. apply (IH _ _ _ _ H).
      rewrite !length_app. simpl. lia.
    + intros H Hlen. exact (IH _ _ _ _ H Hlen).
Qed.

Lemma known_groups_all_known (countries : list CountriesCsv.row)
    (groups : list (Z * Z)) :
  (forall g, In g groups ->
             In (fst g) (map CountriesCsv.CountryID countries)) ->
  map snd (Spec.known_groups countries groups) = map snd groups.
Proof.
  induction groups as [|g groups IH]; intros Hall; [reflexivity|].
  unfold Spec.known_groups. cbn [flat_map].
  destruct (find_by_id CountriesCsv.CountryID countries (fst g)
              (Hall g (or_introl eq_refl))) as [row [Hfind _]].
  rewrite Hfind. cbn [app map snd]. f_equal.
  apply IH. intros g' Hg'. apply Hall. now right.
Qed.

(** X10. The data of the pie chart are aligned: whenever
    [create_production_by_country_pie_chart] returns, it returns as many
    labels as values. When the production and country files exist and
    every record of the mineral names a country of the country table,
    the values add up to the total production of the mineral's records. *)
Theorem pie_chart_aligned_and_complete (db : DatabaseManager.t)
    (mineral_id : Z) :
  (forall labels values,
      VisualizationController.create_production_by_country_pie_chart
        db mineral_id = Ok (labels, values) ->
      List.length labels = List.length values) /\
  (forall (countries : list CountriesCsv.row)
          (stats : list ProductionStatsCsv.row),
      DatabaseManager.countries_file db = Some countries ->
      DatabaseManager.production_stats_file db = Some stats ->
      (forall r, In r stats ->
                 ProductionStatsCsv.MineralID r = mineral_id ->
                 In (ProductionStatsCsv.CountryID r)
                    (map CountriesCsv.CountryID countries)) ->
      exists labels values,
        VisualizationController.create_production_by_country_pie_chart
          db mineral_id = Ok (labels, values) /\
        fold_right Z.add 0 values
        = fold_right Z.add 0
            (map ProductionStatsCsv.Production_tonnes
               (filter (fun r => Z.eqb (ProductionStatsCsv.MineralID r)
                                       mineral_id) stats))).
Proof.
  split.
  - intros labels values.
    unfold VisualizationController.create_production_by_country_pie_chart.
    destruct (DataController.get_production_by_mineral db mineral_id)
      as [stats|e]; cbn [bind]; [|discriminate].
    destruct (VisualizationController.aggregate_production_by_country stats)
      as [d|e]; cbn [bind]; [|discriminate].
    intros H. exact (names_loop_lengths db _ _ _ _ _ H eq_refl).
  - intros countries stats Hc Hs Hfk.
    unfold VisualizationController.create_production_by_country_pie_chart.
    rewrite (get_production_by_mineral_present db stats mineral_id Hs).
    cbn [bind].
    set (selected := filter (fun r => Z.eqb (ProductionStatsCsv.MineralID r)
                                            mineral_id) stats).
    set (records := map DataController.ProductionStats_of_row selected).
    destruct (aggregate_loop_total records []) as [d [Hrun Htot]].
    change (VisualizationController.aggregate_loop records [])
      with (VisualizationController.aggregate_production_by_country records)
      in Hrun.
    rewrite Hrun. cbn [bind]. unfold dict_items.
    rewrite (names_loop_spec db countries d Hc). cbn [app].
    eexists. eexists. split; [reflexivity|].
    rewrite known_groups_all_known.
    + change (fold_right Z.add 0 (map snd d)) with (Sample.total d).
      rewrite Htot. unfold Sample.total_production, records.
      rewrite map_map. reflexivity.
    + intros g Hg.
      rewrite aggregate_production_by_country_spec in Hrun.
      injection Hrun as Hd. rewrite <- Hd in Hg.
      unfold Spec.group_by_country in Hg.
      apply in_map_iff in Hg as [k [<- Hk]]. cbn [fst].
      apply first_seen_fresh in Hk as [_ Hk].
      unfold records in Hk. rewrite map_map in Hk.
      apply in_map_iff in Hk as [r [<- Hr]].
      apply filter_In in Hr as [Hr Hm]. apply Z.eqb_eq in Hm.
      exact (Hfk r Hr Hm).
Qed.

Lemma pie_chart_aligned_and_complete_witness :
  exists labels values,
    VisualizationController.create_production_by_country_pie_chart Demo.db 1
    = Ok (labels, values) /\
    fold_right Z.add 0 values
    = fold_right Z.add 0
        (map ProductionStatsCsv.Production_tonnes
           (filter (fun r => Z.eqb (ProductionStatsCsv.MineralID r) 1)
                   [Demo.stat 1 1 100; Demo.stat 2 2 50; Demo.stat 3 1 30])).
Proof.
  apply (proj2 (pie_chart_aligned_and_complete Demo.db 1)
           [Demo.zambia; Demo.chile]
           [Demo.stat 1 1 100; Demo.stat 2 2 50; Demo.stat 3 1 30]).
  - reflexivity.
  - reflexivity.
  - intros r [<-|[<-|[<-|[]]]] _; simpl; tauto.
Defined.

(** X11. The selection of the trend and export charts treats a mineral
    id of 0 like no mineral id, and a non-zero mineral id makes them
    ignore the country id altogether; in every case the two series of a
    chart have the same length. *)
Theorem chart_selection_rules (db : DatabaseManager.t) :
  (forall country_id,
      VisualizationController.create_production_trend_chart
        db (Some 0) country_id
      = VisualizationController.create_production_trend_chart
          db None country_id /\
      VisualizationController.create_export_value_chart db (Some 0) country_id
      = VisualizationController.create_export_value_chart db None country_id) /\
  (forall mineral_id country_id country_id',
      mineral_id <> 0 ->
      VisualizationController.create_production_trend_chart
        db (Some mineral_id) country_id
      = VisualizationController.create_production_trend_chart
          db (Some mineral_id) country_id' /\
      VisualizationController.create_export_value_chart
        db (Some mineral_id) country_id
      = VisualizationController.create_export_value_chart
          db (Some mineral_id) country_id') /\
  (forall mineral_id country_id,
      (forall years production,
          VisualizationController.create_production_trend_chart
            db mineral_id country_id = Ok (years, production) ->
          List.length years = List.length production) /\
      (forall years export_values,
          VisualizationController.create_export_value_chart
            db mineral_id country_id = Ok (years, export_values) ->
          List.length years = List.length export_values)).
Proof.
  split; [|split].
  - intros country_id. split; reflexivity.
  - intros mineral_id country_id country_id' Hne.
    unfold VisualizationController.create_production_trend_chart,
      VisualizationController.create_export_value_chart,
      VisualizationController.chart_stats.
    cbn [VisualizationController.id_given].
    apply Z.eqb_neq in Hne. rewrite Hne. split; reflexivity.
  - intros mineral_id country_id.
    unfold VisualizationController.create_production_trend_chart,
      VisualizationController.create_export_value_chart.
    destruct (VisualizationController.chart_stats db mineral_id country_id)
      as [stats|e]; cbn [bind].
    + split; intros ? ? H; injection H as <- <-; now rewrite !length_map.
    + split; intros ? ? H; discriminate.
Qed.

Lemma chart_selection_rules_witness :
  VisualizationController.create_production_trend_chart
    Demo.db (Some 1) (Some 2)
  = VisualizationController.create_production_trend_chart
      Demo.db (Some 1) None /\
  VisualizationController.create_export_value_chart Demo.db (Some 1) (Some 2)
  = VisualizationController.create_export_value_chart Demo.db (Some 1) None.
Proof.
  apply (proj1 (proj2 (chart_selection_rules Demo.db)) 1 (Some 2) None).
  discriminate.
Defined.

Lemma get_all_countries_total (db : DatabaseManager.t) :
  DataController.get_all_countries db
  = Ok (map DataController.Country_of_row
          (Sample.rows_or_empty (DatabaseManager.countries_file db))).
Proof.
  unfold DataController.get_all_countries, DatabaseManager.load_countries.
  destruct (DatabaseManager.countries_file db); reflexivity.
Qed.

Lemma get_all_minerals_total (db : DatabaseManager.t) :
  DataController.get_all_minerals db
  = Ok (map DataController.Mineral_of_row
          (Sample.rows_or_empty (DatabaseManager.minerals_file db))).
Proof.
  unfold DataController.get_all_minerals, DatabaseManager.load_minerals.
  destruct (DatabaseManager.minerals_file db); reflexivity.
Qed.

Lemma get_all_production_stats_total (db : DatabaseManager.t) :
  DataController.get_all_production_stats db
  = Ok (map DataController.ProductionStats_of_row
          (Sample.rows_or_empty (DatabaseManager.production_stats_file db))).
Proof.
  unfold DataController.get_all_production_stats,
    DatabaseManager.load_production_stats.
  destruct (DatabaseManager.production_stats_file db); reflexivity.
Qed.

Lemma get_all_sites_total (db : DatabaseManager.t) :
  DataController.get_all_sites db
  = Ok (map DataController.Site_of_row
          (Sample.rows_or_empty (DatabaseManager.sites_file db))).
Proof.
  unfold DataController.get_all_sites, DatabaseManager.load_sites.
  destruct (DatabaseManager.sites_file db); reflexivity.
Qed.

(** X12. The four charts of the analytics page are produced for every
    store, also when files are missing: each returns aligned series with
    one entry per row of its table, and empty series for a missing
    file. *)
Theorem analytics_charts_never_raise (db : DatabaseManager.t) :
  (exists names prices,
      VisualizationController.create_mineral_price_comparison_chart db
      = Ok (names, prices) /\
      List.length names
      = List.length (Sample.rows_or_empty (DatabaseManager.minerals_file db)) /\
      List.length prices = List.length names) /\
  (exists names gdp revenue,
      VisualizationController.create_country_gdp_chart db
      = Ok (names, gdp, revenue) /\
      List.length names
      = List.length (Sample.rows_or_empty (DatabaseManager.countries_file db)) /\
      List.length gdp = List.length names /\
      List.length revenue = List.length names) /\
  (exists years production export_values,
      VisualizationController.create_production_trend_chart db None None
      = Ok (years, production) /\
      VisualizationController.create_export_value_chart db None None
      = Ok (years, export_values) /\
      List.length years
      = List.length
          (Sample.rows_or_empty (DatabaseManager.production_stats_file db)) /\
      List.length production = List.length years /\
      List.length export_values = List.length years).
Proof.
  split; [|split].
  - unfold VisualizationController.create_mineral_price_comparison_chart.
    rewrite get_all_minerals_total. cbn [bind].
    eexists. eexists. split; [reflexivity|]. now rewrite !length_map.
  - unfold VisualizationController.create_country_gdp_chart.
    rewrite get_all_countries_total. cbn [bind].
    eexists. eexists. eexists. split; [reflexivity|]. now rewrite !length_map.
  - unfold VisualizationController.create_production_trend_chart,
      VisualizationController.create_export_value_chart,
      VisualizationController.chart_stats.
    cbn [VisualizationController.id_given].
    rewrite get_all_production_stats_total. cbn [bind].
    eexists. eexists. eexists.
    split; [reflexivity|]. split; [reflexivity|]. now rewrite !length_map.
Qed.

Lemma marker_style_color (production : Z) :
  (fst (VisualizationController.marker_style production) = "red"
   <-> 500000 < production) /\
  (fst (VisualizationController.marker_style production) = "orange"
   <-> 200000 < production <= 500000) /\
  (fst (VisualizationController.marker_style production) = "blue"
   <-> production <= 200000).
Proof.
  unfold VisualizationController.marker_style.
  destruct (Z.gtb_spec production 500000) as [H5|H5];
    [|destruct (Z.gtb_spec production 200000) as [H2|H2]]; cbn [fst];
    (split; [|split]); split; intros Hyp;
    try discriminate Hyp; try reflexivity; lia.
Qed.

(** X13. When the sites, minerals and countries files exist,
    [create_mining_sites_map] puts one marker per site, in the order of
    the sites file: at the site's coordinates, labelled with the site's
    name, with the names of the first mineral and country rows of the
    site's ids or "Unknown" when there is none, red above 500000 tonnes,
    orange above 200000 up to 500000, blue otherwise. Without a sites
    file the map has no marker. *)
Theorem mining_sites_map_markers (db : DatabaseManager.t) :
  (forall (sites : list SitesCsv.row) (minerals : list MineralsCsv.row)
          (countries : list CountriesCsv.row),
      DatabaseManager.sites_file db = Some sites ->
      DatabaseManager.minerals_file db = Some minerals ->
      DatabaseManager.countries_file db = Some countries ->
      exists markers,
        VisualizationController.create_mining_sites_map db = Ok markers /\
        Forall2
          (fun row m =>
             VisualizationController.location m
             = (SitesCsv.Latitude row, SitesCsv.Longitude row) /\
             VisualizationController.tooltip m = SitesCsv.SiteName row /\
             VisualizationController.popup_mineral m
             = match find (fun r => Z.eqb (MineralsCsv.MineralID r)
                                          (SitesCsv.MineralID row)) minerals with
               | Some r => MineralsCsv.MineralName r
               | None => "Unknown"
               end /\
             VisualizationController.popup_country m
             = match find (fun r => Z.eqb (CountriesCsv.CountryID r)
                                          (SitesCsv.CountryID row)) countries with
               | Some r => CountriesCsv.CountryName r
               | None => "Unknown"
               end /\
             (VisualizationController.color m = "red"
              <-> 500000 < SitesCsv.Production_tonnes row) /\
             (VisualizationController.color m = "orange"
              <-> 200000 < SitesCsv.Production_tonnes row <= 500000) /\
             (VisualizationController.color m = "blue"
              <-> SitesCsv.Production_tonnes row <= 200000))
          sites markers) /\
  (DatabaseManager.sites_file db = None ->
   VisualizationController.create_mining_sites_map db = Ok []).
Proof.
  split.
  - intros sites minerals countries Hs Hm Hc.
    unfold VisualizationController.create_mining_sites_map.
    rewrite (get_all_sites_present db sites Hs). cbn [bind].
    set (marker_of := fun site : Site.t =>
      VisualizationController.mkMarker
        (Site.get_latitude site, Site.get_longitude site)
        (Site.get_name site)
        match find (fun r => Z.eqb (CountriesCsv.CountryID r)
                                   (Site.get_country_id site)) countries with
        | Some r => CountriesCsv.CountryName r
        | None => "Unknown"
        end
        match find (fun r => Z.eqb (MineralsCsv.MineralID r)
                                   (Site.get_mineral_id site)) minerals with
        | Some r => MineralsCsv.MineralName r
        | None => "Unknown"
        end
        (Site.get_production site) (Site.get_name site)
        (fst (VisualizationController.marker_style (Site.get_production site)))
        (snd (VisualizationController.marker_style (Site.get_production site)))).
    rewrite (for_each_total _ marker_of).
    + eexists. split; [reflexivity|]. rewrite map_map.
      apply Forall2_map_right. intros row _.
      unfold marker_of. cbn. do 4 (split; [reflexivity|]).
      exact (marker_style_color (SitesCsv.Production_tonnes row)).
    + intros site _. unfold marker_of, VisualizationController.site_marker,
        DataController.get_mineral_by_id, DataController.get_country_by_id.
      rewrite (get_mineral_by_id_present db minerals _ Hm). cbn [bind].
      destruct (find _ minerals); cbn [bind];
        rewrite (get_country_by_id_present db countries _ Hc); cbn [bind];
        destruct (find _ countries); reflexivity.
  - intros Hs. unfold VisualizationController.create_mining_sites_map,
      DataController.get_all_sites, DatabaseManager.load_sites.
    rewrite Hs. reflexivity.
Qed.

Lemma mining_sites_map_markers_witness :
  exists markers,
    VisualizationController.create_mining_sites_map Sample.db = Ok markers /\
    map VisualizationController.popup_country markers = ["Zambia"; "Unknown"] /\
    map VisualizationController.color markers = ["red"; "orange"].
Proof.
  destruct (proj1 (mining_sites_map_markers Sample.db)
              [Sample.kansanshi; Sample.orphan_site] [Demo.copper]
              [Demo.zambia; Demo.chile] eq_refl eq_refl eq_refl)
    as [markers [Hrun _]].
  exists markers. split; [exact Hrun|].
  vm_compute in Hrun. injection Hrun as <-. split; reflexivity.
Defined.

(* ================================================================== *)
(** * Session routes *)
(* ================================================================== *)

Lemma session_get_set_same (k : string) (v : value)
    (d : list (string * value)) :
  dict_get String.eqb k (dict_set String.eqb k v d) = Some v.
Proof.
  induction d as [|[k0 v0] d IH]; simpl.
  - now rewrite String.eqb_refl.
  - destruct (String.eqb k k0) eqn:E; simpl; rewrite E; [reflexivity|exact IH].
Qed.

Lemma session_get_set_other (k k' : string) (v : value)
    (d : list (string * value)) :
  k' <> k ->
  dict_get String.eqb k' (dict_set String.eqb k v d)
  = dict_get String.eqb k' d.
Proof.
  intros Hne. induction d as [|[k0 v0] d IH]; simpl.
  - apply String.eqb_neq in Hne. now rewrite Hne.
  - destruct (String.eqb_spec k k0) as [->|Hk]; simpl.
    + apply String.eqb_neq in Hne. now rewrite Hne.
    + destruct (String.eqb k' k0); [reflexivity|exact IH].
Qed.

Lemma session_get_In (k : string) (v : value) (d : list (string * value)) :
  dict_get String.eqb k d = Some v -> In k (map fst d).
Proof.
  induction d as [|[k0 v0] d IH]; simpl; [discriminate|].
  destruct (String.eqb_spec k k0) as [->|Hne]; [now left|].
  intros H. right. exact (IH H).
Qed.

Section LoginRoute.
Variable check_password_hash : string -> string -> bool.

(** X14. A failed login tells nothing about its cause: posting a user
    name that no row carries, and posting a known user name with a
    password that its stored hash rejects, give the same reply (the login
    page with the one message "Invalid username or password. Please try
    again.") and leave the session as it was. *)
Theorem login_failure_is_generic (db : DatabaseManager.t)
    (users : list UsersCsv.row) (session : list (string * value))
    (unknown known : string) (row : UsersCsv.row)
    (password wrong_password : string) :
  DatabaseManager.users_file db = Some users ->
  ~ In unknown (map UsersCsv.Username users) ->
  find (fun r => String.eqb (UsersCsv.Username r) known) users = Some row ->
  check_password_hash (UsersCsv.PasswordHash row) wrong_password = false ->
  let failure :=
    Ok (App.ReplyRender "login.html"
          [("Invalid username or password. Please try again.", "danger")] [],
        session) in
  App.login check_password_hash db session App.POST unknown password = failure /\
  App.login check_password_hash db session App.POST known wrong_password
  = failure.
Proof.
  intros Hfile Hunknown Hknown Hwrong failure. unfold App.login.
  rewrite !(authenticate_user_present check_password_hash db users _ _ Hfile).
  rewrite Hknown, Hwrong.
  replace (find (fun r => String.eqb (UsersCsv.Username r) unknown) users)
    with (@None UsersCsv.row); [split; reflexivity|].
  symmetry. apply find_none_iff. intros r Hin.
  apply String.eqb_neq. intros Heq. apply Hunknown. rewrite <- Heq.
  now apply in_map.
Qed.

(** X15. A successful login (users and roles files present, the first
    row of the user name accepts the password) redirects to the dashboard
    and leaves a session that holds the row's user id, user name, role id
    and e-mail and the name of the first role row of that role id, or
    "Unknown" when there is none; the other entries of the session are
    kept, [validate_session] accepts the session and [index] sends it to
    the dashboard. *)
Theorem login_success_builds_valid_session (db : DatabaseManager.t)
    (users : list UsersCsv.row) (roles : list RolesCsv.row)
    (session : list (string * value)) (username password : string)
    (row : UsersCsv.row) :
  DatabaseManager.users_file db = Some users ->
  DatabaseManager.roles_file db = Some roles ->
  find (fun r => String.eqb (UsersCsv.Username r) username) users = Some row ->
  check_password_hash (UsersCsv.PasswordHash row) password = true ->
  exists session',
    App.login check_password_hash db session App.POST username password
    = Ok (App.ReplyRedirect "dashboard"
            [("Welcome, " ++ UsersCsv.Username row ++ "!", "success")],
          session') /\
    dict_get String.eqb "user_id" session' = Some (VInt (UsersCsv.UserID row)) /\
    dict_get String.eqb "username" session'
    = Some (VStr (UsersCsv.Username row)) /\
    dict_get String.eqb "role_id" session' = Some (VInt (UsersCsv.RoleID row)) /\
    dict_get String.eqb "role_name" session'
    = Some (VStr match find (fun r => Z.eqb (RolesCsv.RoleID r)
                                            (UsersCsv.RoleID row)) roles with
                 | Some role => RolesCsv.RoleName role
                 | None => "Unknown"
                 end) /\
    dict_get String.eqb "email" session' = Some (VStr (UsersCsv.Email row)) /\
    (forall key,
        ~ In key ["user_id"; "username"; "role_id"; "role_name"; "email"] ->
        dict_get String.eqb key session' = dict_get String.eqb key session) /\
    AuthController.validate_session (Some session') = true /\
    App.index session' = App.ReplyRedirect "dashboard" [].
Proof.
  intros Hu Hr Hfind Hcheck. unfold App.login.
  rewrite (authenticate_user_present check_password_hash db users _ _ Hu).
  rewrite Hfind, Hcheck. cbn [bind].
  unfold User.get_role_id, User.get_id, User.get_username, User.get_email.
  cbn [User.role_id User.user_id User.username User.email].
  rewrite (get_user_role_present db roles _ Hr). cbn [bind].
  eexists. split; [reflexivity|].
  match goal with
  | |- dict_get String.eqb "user_id" ?s = _ /\ _ => set (session' := s)
  end.
  assert (Hid : dict_get String.eqb "user_id" session'
                = Some (VInt (UsersCsv.UserID row))).
  { subst session'. rewrite !session_get_set_other by discriminate.
    apply session_get_set_same. }
  assert (Hname : dict_get String.eqb "username" session'
                  = Some (VStr (UsersCsv.Username row))).
  { subst session'. rewrite !session_get_set_other by discriminate.
    apply session_get_set_same. }
  assert (Hrole : dict_get String.eqb "role_id" session'
                  = Some (VInt (UsersCsv.RoleID row))).
  { subst session'. rewrite !session_get_set_other by discriminate.
    apply session_get_set_same. }
  split; [exact Hid|]. split; [exact Hname|]. split; [exact Hrole|].
  split; [|split; [|split; [|split]]].
  - subst session'. rewrite session_get_set_other by discriminate.
    rewrite session_get_set_same.
    destruct (find _ roles); reflexivity.
  - subst session'. apply session_get_set_same.
  - intros key Hkey. subst session'.
    rewrite !session_get_set_other; [reflexivity| | | | |];
      intros ->; apply Hkey; simpl; tauto.
  - apply validate_session_spec.
    split; [|split]; eapply session_get_In; eassumption.
  - unfold App.index.
    replace (dict_contains String.eqb "user_id" _) with true; [reflexivity|].
    symmetry. apply dict_contains_string_In.
    eapply session_get_In; eassumption.
Qed.

(** X16. With the users file present and the roles file missing, a
    login with correct credentials raises [KeyError] instead of opening a
    session. *)
Theorem login_raises_without_roles_file
    (users : list UsersCsv.row)
    (countries : option (list CountriesCsv.row))
    (minerals : option (list MineralsCsv.row))
    (stats : option (list ProductionStatsCsv.row))
    (sites : option (list SitesCsv.row))
    (session : list (string * value)) (username password : string)
    (row : UsersCsv.row) :
  find (fun r => String.eqb (UsersCsv.Username r) username) users = Some row ->
  check_password_hash (UsersCsv.PasswordHash row) password = true ->
  App.login check_password_hash
    (DatabaseManager.new (Some users) None countries minerals stats sites)
    session App.POST username password
  = Raise (KeyError (VStr "RoleID")).
Proof.
  intros Hfind Hcheck. unfold App.login.
  rewrite (authenticate_user_present check_password_hash
             (DatabaseManager.new (Some users) None countries minerals stats
                                  sites)
             users _ _ eq_refl).
  rewrite Hfind, Hcheck. reflexivity.
Qed.

End LoginRoute.

Lemma login_failure_is_generic_witness :
  App.login Demo.check_password_hash Demo.db Demo.session App.POST
    "nouser" "anything"
  = App.login Demo.check_password_hash Demo.db Demo.session App.POST
      "alice" "looking-glass".
Proof.
  destruct (login_failure_is_generic Demo.check_password_hash Demo.db
              [Demo.alice] Demo.session "nouser" "alice" Demo.alice
              "anything" "looking-glass" eq_refl)
    as [H1 H2].
  - simpl. intros [H|[]]. discriminate.
  - reflexivity.
  - reflexivity.
  - rewrite H1, H2. reflexivity.
Defined.

Lemma login_success_builds_valid_session_witness :
  exists session',
    App.login Demo.check_password_hash Demo.db [] App.POST "alice" "wonderland"
    = Ok (App.ReplyRedirect "dashboard" [("Welcome, alice!", "success")],
          session') /\
    dict_get String.eqb "role_name" session' = Some (VStr "Administrator") /\
    AuthController.validate_session (Some session') = true.
Proof.
  destruct (login_success_builds_valid_session Demo.check_password_hash
              Demo.db [Demo.alice] [Demo.administrator] [] "alice" "wonderland"
              Demo.alice eq_refl eq_refl eq_refl eq_refl)
    as [session' [Hrun [_ [_ [_ [Hrole [_ [_ [Hvalid _]]]]]]]]].
  exists session'. split; [exact Hrun|]. split; [exact Hrole|exact Hvalid].
Defined.

Lemma login_raises_without_roles_file_witness :
  App.login Demo.check_password_hash
    (DatabaseManager.new (Some [Demo.alice]) None None None None None)
    [] App.POST "alice" "wonderland"
  = Raise (KeyError (VStr "RoleID")).
Proof.
  apply (login_raises_without_roles_file Demo.check_password_hash
           [Demo.alice] None None None None [] "alice" "wonderland"
           Demo.alice).
  - reflexivity.
  - reflexivity.
Defined.

Lemma login_required_blocks (session : list (string * value))
    (f : result App.response) :
  ~ In "user_id" (map fst session) ->
  App.login_required session f
  = Ok (App.Redirect "login" [("Please log in to access this page.", "warning")]).
Proof.
  intros Hnot. unfold App.login_required.
  replace (dict_contains String.eqb "user_id" session) with false;
    [reflexivity|].
  symmetry. apply not_true_is_false. intros H.
  apply Hnot. now apply dict_contains_string_In.
Qed.

Lemma login_required_reply_blocks (session : list (string * value))
    (f : result App.reply) :
  ~ In "user_id" (map fst session) ->
  App.login_required_reply session f
  = Ok (App.ReplyRedirect "login"
          [("Please log in to access this page.", "warning")]).
Proof.
  intros Hnot. unfold App.login_required_reply.
  replace (dict_contains String.eqb "user_id" session) with false;
    [reflexivity|].
  symmetry. apply not_true_is_false. intros H.
  apply Hnot. now apply dict_contains_string_In.
Qed.

(** X17. A request without [user_id] in its session never reaches a
    protected view: the dashboard and the two detail routes answer with
    the redirect to the login page and its warning, for every store and
    every id, and raise nothing (not even the [NameError] of
    [mineral_detail]); [index] sends such a request to the login page. *)
Theorem anonymous_requests_are_redirected (db : DatabaseManager.t)
    (session : list (string * value)) (id : Z) :
  ~ In "user_id" (map fst session) ->
  App.dashboard db session
  = Ok (App.ReplyRedirect "login"
          [("Please log in to access this page.", "warning")]) /\
  App.mineral_detail db session id
  = Ok (App.Redirect "login" [("Please log in to access this page.", "warning")]) /\
  App.country_detail db session id
  = Ok (App.Redirect "login" [("Please log in to access this page.", "warning")]) /\
  App.index session = App.ReplyRedirect "login" [].
Proof.
  intros Hnot. split; [|split; [|split]].
  - apply login_required_reply_blocks. exact Hnot.
  - apply login_required_blocks. exact Hnot.
  - apply login_required_blocks. exact Hnot.
  - unfold App.index.
    replace (dict_contains String.eqb "user_id" session) with false;
      [reflexivity|].
    symmetry. apply not_true_is_false. intros H.
    apply Hnot. now apply dict_contains_string_In.
Qed.

Lemma anonymous_requests_are_redirected_witness :
  App.mineral_detail Demo.db [("theme", VStr "dark")] 1
  = Ok (App.Redirect "login" [("Please log in to access this page.", "warning")]).
Proof.
  refine (proj1 (proj2 (anonymous_requests_are_redirected Demo.db
                          [("theme", VStr "dark")] 1 _))).
  simpl. intros [H|[]]. discriminate.
Defined.

(** X18. [logout] empties the session, whatever it held, and redirects
    to the login page with a farewell that names the session's user name
    ("User" when the session has none); after it the session is rejected
    by [validate_session] and every protected route redirects to the
    login page. *)
Theorem logout_clears_session (float_str : float -> string)
    (session : list (string * value)) :
  snd (App.logout float_str session) = [] /\
  (forall name,
      dict_get String.eqb "username" session = Some (VStr name) ->
      fst (App.logout float_str session)
      = App.ReplyRedirect "login"
          [("Goodbye, " ++ name ++ "! You have been logged out.", "info")]) /\
  (dict_get String.eqb "username" session = None ->
   fst (App.logout float_str session)
   = App.ReplyRedirect "login"
       [("Goodbye, User! You have been logged out.", "info")]) /\
  AuthController.validate_session (Some (snd (App.logout float_str session)))
  = false /\
  (forall db id,
      App.mineral_detail db (snd (App.logout float_str session)) id
      = Ok (App.Redirect "login"
              [("Please log in to access this page.", "warning")]) /\
      App.dashboard db (snd (App.logout float_str session))
      = Ok (App.ReplyRedirect "login"
              [("Please log in to access this page.", "warning")])).
Proof.
  split; [reflexivity|]. split; [|split; [|split]].
  - intros name H. unfold App.logout. rewrite H. reflexivity.
  - intros H. unfold App.logout. rewrite H. reflexivity.
  - reflexivity.
  - intros db id. split; reflexivity.
Qed.

Lemma logout_clears_session_witness :
  fst (App.logout (fun _ => "") Demo.session)
  = App.ReplyRedirect "login"
      [("Goodbye, alice! You have been logged out.", "info")].
Proof.
  apply (proj1 (proj2 (logout_clears_session (fun _ => "") Demo.session))
           "alice").
  reflexivity.
Defined.

Lemma login_required_passes (session : list (string * value))
    (f : result App.response) :
  In "user_id" (map fst session) -> App.login_required session f = f.
Proof.
  intros Hin. unfold App.login_required.
  apply dict_contains_string_In in Hin. now rewrite Hin.
Qed.

Lemma login_required_reply_passes (session : list (string * value))
    (f : result App.reply) :
  In "user_id" (map fst session) -> App.login_required_reply session f = f.
Proof.
  intros Hin. unfold App.login_required_reply.
  apply dict_contains_string_In in Hin. now rewrite Hin.
Qed.

Lemma chart_stats_country_present (db : DatabaseManager.t)
    (stats : list ProductionStatsCsv.row) (country_id : Z) :
  DatabaseManager.production_stats_file db = Some stats ->
  VisualizationController.chart_stats db None (Some country_id)
  = Ok (map DataController.ProductionStats_of_row
          (if Z.eqb country_id 0 then stats
           else filter (fun r => Z.eqb (ProductionStatsCsv.CountryID r)
                                       country_id) stats)).
Proof.
  intros H. unfold VisualizationController.chart_stats.
  cbn [VisualizationController.id_given]. destruct (Z.eqb country_id 0).
  - exact (get_all_production_stats_present db stats H).
  - exact (get_production_by_country_present db stats country_id H).
Qed.

Lemma get_mineral_by_id_missing (db : DatabaseManager.t) (mineral_id : Z) :
  DatabaseManager.minerals_file db = None ->
  DataController.get_mineral_by_id db mineral_id
  = Raise (KeyError (VStr "MineralID")).
Proof.
  intros H. unfold DataController.get_mineral_by_id,
    DatabaseManager.get_mineral_by_id, DatabaseManager.load_minerals.
  rewrite H. reflexivity.
Qed.

Lemma country_site_pin_present (db : DatabaseManager.t)
    (minerals : list MineralsCsv.row) (site : Site.t) :
  DatabaseManager.minerals_file db = Some minerals ->
  VisualizationController.country_site_pin db site
  = Ok (Sample.pin_of minerals site).
Proof.
  intros H. unfold VisualizationController.country_site_pin,
    DataController.get_mineral_by_id, Sample.pin_of.
  rewrite (get_mineral_by_id_present db minerals _ H). cbn [bind].
  destruct (find _ minerals); reflexivity.
Qed.

(** X19. For a logged-in session and existing countries, production and
    sites files, [country_detail] answers with the "Country not found."
    redirect when no country row has the id. Otherwise it renders the
    country of the first such row with the production records and the
    sites of that country id, in file order; with the trend and export
    charts when there is a record (drawn from the records of the
    country, or from all records when the id is 0); and, when there is a
    site, with the map of the sites, which needs the minerals file: if
    that file is missing and the country has a site, the view raises
    [KeyError] instead of rendering. *)
Theorem country_detail_found_or_redirected (db : DatabaseManager.t)
    (countries : list CountriesCsv.row) (stats : list ProductionStatsCsv.row)
    (sites : list SitesCsv.row) (session : list (string * value))
    (country_id : Z) :
  In "user_id" (map fst session) ->
  DatabaseManager.countries_file db = Some countries ->
  DatabaseManager.production_stats_file db = Some stats ->
  DatabaseManager.sites_file db = Some sites ->
  let records :=
    map DataController.ProductionStats_of_row
      (filter (fun r => Z.eqb (ProductionStatsCsv.CountryID r) country_id)
              stats) in
  let located :=
    map DataController.Site_of_row
      (filter (fun r => Z.eqb (SitesCsv.CountryID r) country_id) sites) in
  let charted :=
    map DataController.ProductionStats_of_row
      (if Z.eqb country_id 0 then stats
       else filter (fun r => Z.eqb (ProductionStatsCsv.CountryID r) country_id)
                   stats) in
  let trend :=
    match records with
    | [] => None
    | _ :: _ => Some (map ProductionStats.get_year charted,
                      map ProductionStats.get_production charted)
    end in
  let export :=
    match records with
    | [] => None
    | _ :: _ => Some (map ProductionStats.get_year charted,
                      map ProductionStats.get_export_value charted)
    end in
  (~ In country_id (map CountriesCsv.CountryID countries) ->
   App.country_detail db session country_id
   = Ok (App.Redirect "countries" [("Country not found.", "danger")])) /\
  (forall row,
      find (fun r => Z.eqb (CountriesCsv.CountryID r) country_id) countries
      = Some row ->
      located = [] ->
      App.country_detail db session country_id
      = Ok (App.RenderCountryDetail (DataController.Country_of_row row)
              records [] trend export None)) /\
  (forall row minerals,
      find (fun r => Z.eqb (CountriesCsv.CountryID r) country_id) countries
      = Some row ->
      located <> [] ->
      DatabaseManager.minerals_file db = Some minerals ->
      App.country_detail db session country_id
      = Ok (App.RenderCountryDetail (DataController.Country_of_row row)
              records located trend export
              (Some (VisualizationController.SitesMap
                       (map Site.get_coordinates located)
                       (map (Sample.pin_of minerals) located))))) /\
  (forall row,
      find (fun r => Z.eqb (CountriesCsv.CountryID r) country_id) countries
      = Some row ->
      located <> [] ->
      DatabaseManager.minerals_file db = None ->
      App.country_detail db session country_id
      = Raise (KeyError (VStr "MineralID"))).
Proof.
  intros Hlogin Hc Hs Hsites records located charted trend export.
  unfold App.country_detail. rewrite (login_required_passes _ _ Hlogin).
  unfold App.country_detail_body, DataController.get_country_by_id.
  rewrite (get_country_by_id_present db countries country_id Hc). cbn [bind].
  assert (Hcharts :
    forall T (k : option (list Z * list Z) * option (list Z * list float)
                  -> result T),
      bind match records with
           | [] => Ok (None, None)
           | _ :: _ =>
               production_trend_chart <-
                 VisualizationController.create_production_trend_chart
                   db None (Some country_id) ;;
               export_value_chart <-
                 VisualizationController.create_export_value_chart
                   db None (Some country_id) ;;
               Ok (Some production_trend_chart, Some export_value_chart)
           end k
      = k (trend, export)).
  { intros T k. unfold trend, export.
    unfold VisualizationController.create_production_trend_chart,
      VisualizationController.create_export_value_chart.
    rewrite (chart_stats_country_present db stats country_id Hs).
    destruct records; reflexivity. }
  split; [|split; [|split]].
  - intros Hnot.
    replace (find _ countries) with (@None CountriesCsv.row); [reflexivity|].
    symmetry. apply find_none_iff. intros r Hin.
    apply Z.eqb_neq. intros Heq. apply Hnot. rewrite <- Heq.
    now apply in_map.
  - intros row Hfind Hnone. rewrite Hfind.
    rewrite (get_production_by_country_present db stats country_id Hs).
    cbn [bind].
    rewrite (get_sites_by_country_present db sites country_id Hsites).
    cbn [bind]. fold records. fold located. rewrite Hcharts, Hnone.
    reflexivity.
  - intros row minerals Hfind Hsome Hm. rewrite Hfind.
    rewrite (get_production_by_country_present db stats country_id Hs).
    cbn [bind].
    rewrite (get_sites_by_country_present db sites country_id Hsites).
    cbn [bind]. fold records. fold located. rewrite Hcharts.
    unfold VisualizationController.create_country_sites_map.
    rewrite (get_sites_by_country_present db sites country_id Hsites).
    cbn [bind]. fold located.
    rewrite (for_each_total _ (Sample.pin_of minerals))
      by (intros site _; apply country_site_pin_present; exact Hm).
    destruct located; [congruence|reflexivity].
  - intros row Hfind Hsome Hm. rewrite Hfind.
    rewrite (get_production_by_country_present db stats country_id Hs).
    cbn [bind].
    rewrite (get_sites_by_country_present db sites country_id Hsites).
    cbn [bind]. fold records. fold located. rewrite Hcharts.
    unfold VisualizationController.create_country_sites_map.
    rewrite (get_sites_by_country_present db sites country_id Hsites).
    cbn [bind]. fold located.
    destruct located as [|site rest]; [congruence|].
    cbn [for_each]. unfold VisualizationController.country_site_pin.
    rewrite (get_mineral_by_id_missing db _ Hm). reflexivity.
Qed.

Lemma country_detail_found_or_redirected_witness :
  App.country_detail Sample.db Demo.session 7
  = Ok (App.Redirect "countries" [("Country not found.", "danger")]) /\
  App.country_detail Sample.db Demo.session 2
  = Ok (App.RenderCountryDetail
          (DataController.Country_of_row Demo.chile)
          (map DataController.ProductionStats_of_row [Demo.stat 2 2 50]) []
          (Some ([2023], [50])) (Some ([2023], [2%float])) None) /\
  App.country_detail Sample.db Demo.session 1
  = Ok (App.RenderCountryDetail
          (DataController.Country_of_row Demo.zambia)
          (map DataController.ProductionStats_of_row
             [Demo.stat 1 1 100; Demo.stat 3 1 30])
          (map DataController.Site_of_row [Sample.kansanshi])
          (Some ([2023; 2023], [100; 30]))
          (Some ([2023; 2023], [2%float; 2%float]))
          (Some (VisualizationController.SitesMap
                   [((-12)%float, 26%float)]
                   [VisualizationController.mkSitePin
                      ((-12)%float, 26%float) "Kansanshi" "Copper" 600000
                      "Kansanshi"]))) /\
  App.country_detail Sample.db_no_minerals Demo.session 1
  = Raise (KeyError (VStr "MineralID")).
Proof.
  assert (Hlogin : In "user_id" (map fst Demo.session)) by (simpl; tauto).
  split; [|split; [|split]].
  - apply (proj1 (country_detail_found_or_redirected Sample.db
                    [Demo.zambia; Demo.chile]
                    [Demo.stat 1 1 100; Demo.stat 2 2 50; Demo.stat 3 1 30]
                    [Sample.kansanshi; Sample.orphan_site] Demo.session 7
                    Hlogin eq_refl eq_refl eq_refl)).
    simpl. intros [H|[H|[]]]; discriminate.
  - exact (proj1 (proj2 (country_detail_found_or_redirected Sample.db
                    [Demo.zambia; Demo.chile]
                    [Demo.stat 1 1 100; Demo.stat 2 2 50; Demo.stat 3 1 30]
                    [Sample.kansanshi; Sample.orphan_site] Demo.session 2
                    Hlogin eq_refl eq_refl eq_refl))
             Demo.chile eq_refl eq_refl).
  - refine (proj1 (proj2 (proj2 (country_detail_found_or_redirected Sample.db
                    [Demo.zambia; Demo.chile]
                    [Demo.stat 1 1 100; Demo.stat 2 2 50; Demo.stat 3 1 30]
                    [Sample.kansanshi; Sample.orphan_site] Demo.session 1
                    Hlogin eq_refl eq_refl eq_refl)))
              Demo.zambia [Demo.copper] eq_refl _ eq_refl).
    discriminate.
  - refine (proj2 (proj2 (proj2 (country_detail_found_or_redirected
                    Sample.db_no_minerals
                    [Demo.zambia; Demo.chile]
                    [Demo.stat 1 1 100; Demo.stat 2 2 50; Demo.stat 3 1 30]
                    [Sample.kansanshi; Sample.orphan_site] Demo.session 1
                    Hlogin eq_refl eq_refl eq_refl)))
              Demo.zambia eq_refl _ eq_refl).
    discriminate.
Defined.

(** X20. For a logged-in session the dashboard is rendered for every
    store and never raises: its three counts are the numbers of rows of
    the countries, minerals and sites files, 0 for a file that does not
    exist, and it shows the user name and role name of the session. *)
Theorem dashboard_counts_rows (db : DatabaseManager.t)
    (session : list (string * value)) :
  In "user_id" (map fst session) ->
  App.dashboard db session
  = Ok (App.ReplyRender "dashboard.html" []
          [ ("username", dict_get String.eqb "username" session);
            ("role_name", dict_get String.eqb "role_name" session);
            ("countries_count",
              Some (VInt (Z.of_nat (List.length
                (Sample.rows_or_empty (DatabaseManager.countries_file db))))));
            ("minerals_count",
              Some (VInt (Z.of_nat (List.length
                (Sample.rows_or_empty (DatabaseManager.minerals_file db))))));
            ("sites_count",
              Some (VInt (Z.of_nat (List.length
                (Sample.rows_or_empty (DatabaseManager.sites_file db)))))) ]).
Proof.
  intros Hlogin. unfold App.dashboard.
  rewrite (login_required_reply_passes _ _ Hlogin).
  rewrite get_all_countries_total. cbn [bind].
  rewrite get_all_minerals_total. cbn [bind].
  rewrite get_all_sites_total. cbn [bind].
  now rewrite !length_map.
Qed.

Lemma dashboard_counts_rows_witness :
  App.dashboard Demo.db_missing Demo.session
  = Ok (App.ReplyRender "dashboard.html" []
          [ ("username", Some (VStr "alice")); ("role_name", None);
            ("countries_count", Some (VInt 0));
            ("minerals_count", Some (VInt 0));
            ("sites_count", Some (VInt 0)) ]).
Proof.
  apply (dashboard_counts_rows Demo.db_missing Demo.session).
  simpl. tauto.
Defined.

(* ================================================================== *)
(** * The password migration script *)
(* ================================================================== *)

Section Migration.
Variable generate_password_hash : nat -> string -> string.

Lemma migrate_columns (rows : list UsersCsv.row) :
  forall index,
    List.length (Sample.migrate generate_password_hash index rows) = List.length rows /\
    map UsersCsv.UserID (Sample.migrate generate_password_hash index rows) = map UsersCsv.UserID rows /\
    map UsersCsv.Username (Sample.migrate generate_password_hash index rows) = map UsersCsv.Username rows /\
    map UsersCsv.RoleID (Sample.migrate generate_password_hash index rows) = map UsersCsv.RoleID rows /\
    map UsersCsv.Email (Sample.migrate generate_password_hash index rows) = map UsersCsv.Email rows.
Proof.
  unfold Sample.migrate. induction rows as [|r rows IH]; intros index.
  - repeat split.
  - destruct (IH (S index)) as [Hl [Hi [Hn [Hr He]]]].
    cbn [HashPasswords.hash_loop HashPasswords.set_password_column
         List.length map UsersCsv.UserID UsersCsv.Username UsersCsv.RoleID
         UsersCsv.Email].
    rewrite Hl, Hi, Hn, Hr, He. repeat split.
Qed.

Lemma migrate_nth (rows : list UsersCsv.row) :
  forall index n r,
    nth_error rows n = Some r ->
    exists r',
      nth_error (Sample.migrate generate_password_hash index rows) n = Some r' /\
      UsersCsv.Username r' = UsersCsv.Username r /\
      UsersCsv.UserID r' = UsersCsv.UserID r /\
      UsersCsv.PasswordHash r'
      = generate_password_hash (index + n) (UsersCsv.PasswordHash r).
Proof.
  unfold Sample.migrate. induction rows as [|r0 rows IH]; intros index n r Hn.
  - destruct n; discriminate.
  - destruct n as [|n].
    + injection Hn as <-. eexists. split; [reflexivity|].
      cbn. rewrite Nat.add_0_r. repeat split.
    + destruct (IH (S index) n r Hn) as [r' [Hr' Hfields]].
      exists r'. split; [exact Hr'|].
      replace (index + S n)%nat with (S index + n)%nat by lia.
      exact Hfields.
Qed.

Lemma migrate_find (username : string) (rows : list UsersCsv.row) :
  forall index r,
    find (fun x => String.eqb (UsersCsv.Username x) username) rows = Some r ->
    exists n r',
      nth_error rows n = Some r /\
      find (fun x => String.eqb (UsersCsv.Username x) username)
           (Sample.migrate generate_password_hash index rows) = Some r' /\
      UsersCsv.UserID r' = UsersCsv.UserID r /\
      UsersCsv.PasswordHash r'
      = generate_password_hash (index + n) (UsersCsv.PasswordHash r).
Proof.
  unfold Sample.migrate. induction rows as [|r0 rows IH]; intros index r Hfind;
    [discriminate|].
  cbn [find] in Hfind.
  cbn [HashPasswords.hash_loop HashPasswords.set_password_column find
       UsersCsv.Username].
  destruct (String.eqb (UsersCsv.Username r0) username) eqn:E.
  - injection Hfind as <-. exists 0%nat. eexists.
    split; [reflexivity|]. split; [reflexivity|].
    cbn. rewrite Nat.add_0_r. split; reflexivity.
  - destruct (IH (S index) r Hfind) as [n [r' [Hn [Hf Hfields]]]].
    exists (S n), r'. split; [exact Hn|]. split; [exact Hf|].
    replace (index + S n)%nat with (S index + n)%nat by lia.
    exact Hfields.
Qed.

(** X21. Run on an existing users file, [hash_user_passwords] leaves a
    backup equal to the file as it was and a users file with the same
    number of rows, the same user ids, user names, role ids and e-mails
    in the same order, where the password of the n-th row is replaced by
    the hash generated for it at the n-th call. *)
Theorem hash_user_passwords_rewrites_only_passwords
    (fs : HashPasswords.files) (users : list UsersCsv.row) :
  HashPasswords.users_file fs = Some users ->
  exists users',
    HashPasswords.hash_user_passwords generate_password_hash fs
    = HashPasswords.mkFiles (Some users') (Some users) /\
    List.length users' = List.length users /\
    map UsersCsv.UserID users' = map UsersCsv.UserID users /\
    map UsersCsv.Username users' = map UsersCsv.Username users /\
    map UsersCsv.RoleID users' = map UsersCsv.RoleID users /\
    map UsersCsv.Email users' = map UsersCsv.Email users /\
    (forall n r,
        nth_error users n = Some r ->
        exists r',
          nth_error users' n = Some r' /\
          UsersCsv.PasswordHash r'
          = generate_password_hash n (UsersCsv.PasswordHash r)).
Proof.
  intros H. exists (Sample.migrate generate_password_hash 0 users).
  unfold HashPasswords.hash_user_passwords. rewrite H.
  split; [reflexivity|].
  destruct (migrate_columns users 0%nat) as [Hl [Hi [Hn [Hr He]]]].
  repeat (split; [assumption|]).
  intros n r Hnth.
  destruct (migrate_nth users 0%nat n r Hnth) as [r' [Hr' [_ [_ Hh]]]].
  exists r'. split; [exact Hr'|exact Hh].
Qed.

(** X22. Without a users file [hash_user_passwords] changes nothing and
    writes no backup; and the script runs it only when the answer at the
    prompt is "yes" or "y", in any letter case: every other answer
    leaves the files untouched. *)
Theorem migration_guards (fs : HashPasswords.files) :
  (HashPasswords.users_file fs = None ->
   HashPasswords.hash_user_passwords generate_password_hash fs = fs) /\
  (forall response,
      lower response = "yes" \/ lower response = "y" ->
      HashPasswords.main generate_password_hash response fs
      = HashPasswords.hash_user_passwords generate_password_hash fs) /\
  (forall response,
      lower response <> "yes" -> lower response <> "y" ->
      HashPasswords.main generate_password_hash response fs = fs) /\
  HashPasswords.main generate_password_hash "YES" fs
  = HashPasswords.hash_user_passwords generate_password_hash fs /\
  HashPasswords.main generate_password_hash "no" fs = fs.
Proof.
  split; [|split; [|split; [|split]]].
  - intros H. unfold HashPasswords.hash_user_passwords. now rewrite H.
  - intros response [H|H]; unfold HashPasswords.main; rewrite H; reflexivity.
  - intros response Hyes Hy. unfold HashPasswords.main.
    replace (str_in (lower response) ["yes"; "y"]) with false; [reflexivity|].
    symmetry. apply not_true_is_false. intros Hin.
    apply str_in_In in Hin as [Heq|[Heq|[]]]; congruence.
  - reflexivity.
  - reflexivity.
Qed.

Variable check_password_hash : string -> string -> bool.

(** X24. If every generated hash accepts the password it was generated
    from, then after [hash_user_passwords] every user name of the old
    file authenticates with the password that its first row held in
    plain text, and the user returned has that row's user id. *)
Theorem migrated_users_authenticate
    (fs : HashPasswords.files) (users : list UsersCsv.row)
    (roles : option (list RolesCsv.row))
    (countries : option (list CountriesCsv.row))
    (minerals : option (list MineralsCsv.row))
    (stats : option (list ProductionStatsCsv.row))
    (sites : option (list SitesCsv.row))
    (username : string) (row : UsersCsv.row) :
  (forall call password,
      check_password_hash (generate_password_hash call password) password
      = true) ->
  HashPasswords.users_file fs = Some users ->
  find (fun r => String.eqb (UsersCsv.Username r) username) users = Some row ->
  exists user,
    AuthController.authenticate_user check_password_hash
      (DatabaseManager.new
         (HashPasswords.users_file
            (HashPasswords.hash_user_passwords generate_password_hash fs))
         roles countries minerals stats sites)
      username (UsersCsv.PasswordHash row)
    = Ok (Some user) /\
    User.get_id user = UsersCsv.UserID row.
Proof.
  intros Hlaw Hfile Hfind.
  unfold HashPasswords.hash_user_passwords. rewrite Hfile.
  cbn [HashPasswords.users_file].
  destruct (migrate_find username users 0%nat row Hfind)
    as [n [r' [_ [Hf [Hid Hh]]]]].
  change (HashPasswords.set_password_column users
            (HashPasswords.hash_loop generate_password_hash 0 users))
    with (Sample.migrate generate_password_hash 0 users).
  rewrite (authenticate_user_present check_password_hash
             (DatabaseManager.new
                (Some (Sample.migrate generate_password_hash 0 users))
                roles countries minerals stats sites)
             (Sample.migrate generate_password_hash 0 users) username
             (UsersCsv.PasswordHash row) eq_refl).
  rewrite Hf, Hh, Hlaw.
  eexists. split; [reflexivity|]. exact Hid.
Qed.

End Migration.

(** X23. A second run of [hash_user_passwords] overwrites the backup
    with the already hashed table, so the original passwords are on disk
    nowhere any more, and hashes every stored hash again, with the hashes
    it generates itself (each run draws its own salts). *)
Theorem second_run_overwrites_backup
    (first_generate second_generate : nat -> string -> string)
    (fs : HashPasswords.files) (users : list UsersCsv.row) :
  HashPasswords.users_file fs = Some users ->
  let once := HashPasswords.hash_user_passwords first_generate fs in
  let twice := HashPasswords.hash_user_passwords second_generate once in
  HashPasswords.backup_file twice = HashPasswords.users_file once /\
  (forall n r,
      nth_error users n = Some r ->
      exists r1 r2,
        nth_error (Sample.rows_or_empty (HashPasswords.backup_file twice)) n
        = Some r1 /\
        UsersCsv.PasswordHash r1
        = first_generate n (UsersCsv.PasswordHash r) /\
        nth_error (Sample.rows_or_empty (HashPasswords.users_file twice)) n
        = Some r2 /\
        UsersCsv.PasswordHash r2
        = second_generate n (first_generate n (UsersCsv.PasswordHash r))).
Proof.
  intros H once twice.
  assert (Honce : once = HashPasswords.mkFiles
                           (Some (Sample.migrate first_generate 0 users))
                           (Some users)).
  { unfold once, HashPasswords.hash_user_passwords. now rewrite H. }
  assert (Htwice : twice = HashPasswords.mkFiles
                             (Some (Sample.migrate second_generate 0
                                      (Sample.migrate first_generate 0 users)))
                             (Some (Sample.migrate first_generate 0 users))).
  { unfold twice. rewrite Honce. reflexivity. }
  rewrite Htwice, Honce. split; [reflexivity|].
  intros n r Hnth. cbn [HashPasswords.backup_file HashPasswords.users_file
                        Sample.rows_or_empty].
  destruct (migrate_nth first_generate users 0%nat n r Hnth)
    as [r1 [Hr1 [_ [_ Hh1]]]].
  destruct (migrate_nth second_generate
              (Sample.migrate first_generate 0 users) 0%nat n r1 Hr1)
    as [r2 [Hr2 [_ [_ Hh2]]]].
  exists r1, r2. split; [exact Hr1|]. split; [exact Hh1|].
  split; [exact Hr2|]. rewrite Hh2, Hh1. reflexivity.
Qed.

Lemma hash_user_passwords_rewrites_only_passwords_witness :
  HashPasswords.hash_user_passwords Sample.generate_password_hash
    Sample.files_before
  = HashPasswords.mkFiles (Some [Demo.alice]) (Some [Sample.alice_plain]).
Proof.
  destruct (hash_user_passwords_rewrites_only_passwords
              Sample.generate_password_hash Sample.files_before
              [Sample.alice_plain] eq_refl)
    as [users' [Hrun _]].
  rewrite Hrun. vm_compute in Hrun. injection Hrun as <-. reflexivity.
Defined.

Lemma migration_guards_witness :
  HashPasswords.main Sample.generate_password_hash "Yes" Sample.files_before
  = HashPasswords.hash_user_passwords Sample.generate_password_hash
      Sample.files_before /\
  HashPasswords.main Sample.generate_password_hash "yes please"
    Sample.files_before
  = Sample.files_before.
Proof.
  split.
  - apply (proj1 (proj2 (migration_guards Sample.generate_password_hash
                           Sample.files_before)) "Yes").
    left. reflexivity.
  - apply (proj1 (proj2 (proj2 (migration_guards Sample.generate_password_hash
                                  Sample.files_before))) "yes please");
      discriminate.
Defined.

Lemma second_run_overwrites_backup_witness :
  HashPasswords.hash_user_passwords (fun _ p => "salt2$" ++ p)
    (HashPasswords.hash_user_passwords (fun _ p => "salt1$" ++ p)
       Sample.files_before)
  = HashPasswords.mkFiles
      (Some [ {| UsersCsv.UserID := 1; UsersCsv.Username := "alice";
                 UsersCsv.PasswordHash := "salt2$salt1$wonderland";
                 UsersCsv.RoleID := 1;
                 UsersCsv.Email := "alice@example.org" |} ])
      (Some [ {| UsersCsv.UserID := 1; UsersCsv.Username := "alice";
                 UsersCsv.PasswordHash := "salt1$wonderland";
                 UsersCsv.RoleID := 1;
                 UsersCsv.Email := "alice@example.org" |} ]).
Proof.
  destruct (second_run_overwrites_backup
              (fun _ p => "salt1$" ++ p) (fun _ p => "salt2$" ++ p)
              Sample.files_before [Sample.alice_plain] eq_refl)
    as [Hbackup Hrows].
  destruct (Hrows 0%nat Sample.alice_plain eq_refl)
    as [r1 [r2 [_ [_ [Hr2 _]]]]].
  vm_compute in Hr2. injection Hr2 as <-. reflexivity.
Defined.

Lemma migrated_users_authenticate_witness :
  exists user,
    AuthController.authenticate_user Demo.check_password_hash
      (DatabaseManager.new
         (HashPasswords.users_file
            (HashPasswords.hash_user_passwords Sample.generate_password_hash
               Sample.files_before))
         None None None None None)
      "alice" "wonderland"
    = Ok (Some user) /\
    User.get_id user = 1.
Proof.
  apply (migrated_users_authenticate Sample.generate_password_hash
           Demo.check_password_hash Sample.files_before [Sample.alice_plain]
           None None None None None "alice" Sample.alice_plain).
  - intros call password. apply String.eqb_refl.
  - reflexivity.
  - reflexivity.
Defined.
